(** * The recommendation engine of grec5 (recommendation_engine.py)

    A shallow embedding of [RecommendationEngine]: eligibility, scoring,
    ranking, reason generation and the no-match diagnosis, followed by the
    properties of the engine.  The manager of catalog sources and the
    validation of package data (data_sources.py), which feed the engine, are
    embedded as well.

    Modelling conventions.
    - Python numbers (the ints and floats found in needs, specs, budgets and
      the configuration) are exact rationals [Q]; binary64 rounding error,
      infinities and NaN are outside the model.  Comparisons are the boolean
      tests of [QArith], read the way Python evaluates them.
    - A dict that the code iterates ([user_needs], [insufficient_specs]) is an
      association list in insertion order; a dict that is only looked up (the
      specs of a product) is a [gmap string Q].
    - A product dict is a record whose optional entries are [option]s.
    - An f-string is the list of its literal and interpolated pieces.
    - [min()] and [max()] of an empty sequence raise [ValueError]: they return
      [option], and the code that calls them is in the option monad.
    - What a call leaves behind is stated on a second, state-passing
      embedding of the methods on the path of [recommend] (module
      [Stateful]), related to the pure one method by method. *)

From Stdlib Require Import QArith Lqa Sorting.Sorted Sorting.Permutation.
From stdpp Require Import gmap strings list.

Local Open Scope Q_scope.

(** ** Python numerics *)

Module Py.

Definition le (a b : Q) : bool := Qle_bool a b.
Definition lt (a b : Q) : bool := negb (Qle_bool b a).
Definition ge (a b : Q) : bool := le b a.
Definition gt (a b : Q) : bool := lt b a.
Definition eqb (a b : Q) : bool := Qeq_bool a b.

(** [min(a, b)] keeps [a] unless [b < a]; [max(a, b)] keeps [a] unless
    [b > a]. *)
Definition min (a b : Q) : Q := if lt b a then b else a.
Definition max (a b : Q) : Q := if gt b a then b else a.

(** [min(iterable)] and [max(iterable)]: the first extremal element, and
    [None] for the [ValueError] of an empty iterable. *)
Definition min_of (l : list Q) : option Q :=
  match l with
  | [] => None
  | x :: rest => Some (fold_left (fun cur y => if lt y cur then y else cur) rest x)
  end.

Definition max_of (l : list Q) : option Q :=
  match l with
  | [] => None
  | x :: rest => Some (fold_left (fun cur y => if gt y cur then y else cur) rest x)
  end.

(** [sum(l)] starts from 0 and adds from the left. *)
Definition sum (l : list Q) : Q := fold_left Qplus l 0.

Definition len {A} (l : list A) : Q := inject_Z (Z.of_nat (length l)).

(** Rounding to the nearest integer, halves to the even neighbour. *)
Definition round_half_even (q : Q) : Z :=
  let n := Qnum q in
  let d := Zpos (Qden q) in
  let fl := (n / d)%Z in
  match (2 * (n mod d) ?= d)%Z with
  | Lt => fl
  | Gt => (fl + 1)%Z
  | Eq => if Z.even fl then fl else (fl + 1)%Z
  end.

(** [round(q, 2)] as exact arithmetic has it: the nearest multiple of 1/100,
    a half going to the even neighbour.  The code rounds the binary64 value
    it has computed, which can lie on the other side of a half (1.075 is
    stored just below it), so the rounded scores of the model and of the code
    can differ in the last digit; only what holds of both is proved of
    them. *)
Definition round2 (q : Q) : Q := round_half_even (q * 100) # 100.

(** [l[:n]]: a negative [n] counts from the end. *)
Definition slice_to {A} (l : list A) (n : Z) : list A :=
  if (0 <=? n)%Z then firstn (Z.to_nat n) l
  else firstn (Z.to_nat (Z.of_nat (length l) + n)) l.

End Py.

(** ** Data model *)

(** [user_needs]: attribute name to required quantity, in insertion order. *)
Definition Needs : Type := list (string * Q).

(** A product of the catalog.  ["specs"] and the top-level ["price"] may be
    missing from the dict; the price of a product normally sits in its specs
    under the key ["price"]. *)
Record Product : Type := {
  name : string;
  specs : option (gmap string Q);
  price : option Q;
  features : list string
}.

Record ScoreWeights : Type := {
  usage_match : Q;
  price_advantage : Q
}.

Record Thresholds : Type := {
  budget_tolerance : Q;
  waste_penalty : Q;
  perfect_match_ratio : Q
}.

Record Config : Type := {
  score_weights : ScoreWeights;
  thresholds : Thresholds;
  max_recommendations : Z
}.

(** The engine object: its only attribute is the configuration. *)
Record RecommendationEngine : Type := {
  config : Config
}.

Definition _get_default_config : Config := {|
  score_weights := {| usage_match := 7 # 10; price_advantage := 3 # 10 |};
  thresholds := {| budget_tolerance := 12 # 10;
                   waste_penalty := 1 # 10;
                   perfect_match_ratio := 15 # 10 |};
  max_recommendations := 10
|}.

(** [self.config = config or self._get_default_config()] *)
Definition __init__ (cfg : option Config) : RecommendationEngine :=
  {| config := default _get_default_config cfg |}.

(** Pieces of an f-string: literal text, [{x}] and [{x:.1f}]. *)
Inductive piece : Type :=
  | Lit (s : string)
  | Num (q : Q)
  | Num1f (q : Q).

Definition text : Type := list piece.

Record Recommendation : Type := {
  product : Product;
  score : Q;
  usage_score : Q;
  price_score : Q;
  match_reason : text
}.

(** The [analysis] dict of [analyze_no_match_reason]. *)
Record Diagnosis : Type := {
  over_budget_products : list Product;
  insufficient_specs : list (string * list Product);
  suggestions : list text
}.

(** ** Scoring *)

Fixpoint _calculate_satisfaction_scores
    (user_needs : Needs) (product_specs : gmap string Q) : list Q :=
  match user_needs with
  | [] => []
  | (need_key, user_value) :: rest =>
      match product_specs !! need_key with
      | Some product_value =>
          (if Py.gt user_value 0
           then Py.min (product_value / user_value) 2
           else 1)
          :: _calculate_satisfaction_scores rest product_specs
      | None => _calculate_satisfaction_scores rest product_specs
      end
  end.

Fixpoint _calculate_waste_penalties
    (user_needs : Needs) (product_specs : gmap string Q) : list Q :=
  match user_needs with
  | [] => []
  | (need_key, user_value) :: rest =>
      match product_specs !! need_key with
      | Some product_value =>
          if Py.gt user_value 0 then
            if Py.gt product_value user_value
            then ((product_value - user_value) / user_value)
                 :: _calculate_waste_penalties rest product_specs
            else _calculate_waste_penalties rest product_specs
          else _calculate_waste_penalties rest product_specs
      | None => _calculate_waste_penalties rest product_specs
      end
  end.

Definition _compute_final_usage_score
    (self : RecommendationEngine) (scores penalties : list Q) : Q :=
  let avg_score :=
    match scores with [] => 0 | _ => Py.sum scores / Py.len scores end in
  let avg_penalty :=
    match penalties with [] => 0 | _ => Py.sum penalties / Py.len penalties end in
  let final_score :=
    avg_score - avg_penalty * waste_penalty (thresholds (config self)) in
  Py.max final_score 0.

Definition calculate_usage_score
    (self : RecommendationEngine) (user_needs : Needs)
    (product_specs : gmap string Q) : Q :=
  let scores := _calculate_satisfaction_scores user_needs product_specs in
  let penalties := _calculate_waste_penalties user_needs product_specs in
  _compute_final_usage_score self scores penalties.

Definition calculate_price_score (user_budget product_price : Q) : Q :=
  if Py.le product_price 0 then 0 else user_budget / product_price.

Definition _calculate_weighted_score
    (self : RecommendationEngine) (usage_score price_score : Q) : Q :=
  usage_score * usage_match (score_weights (config self))
  + price_score * price_advantage (score_weights (config self)).

(** ** Eligibility *)

(** The loop over [user_needs.items()] of [check_basic_requirements]. *)
Fixpoint check_needs (user_needs : Needs) (product_specs : gmap string Q) : bool :=
  match user_needs with
  | [] => true
  | (need_key, user_value) :: rest =>
      match product_specs !! need_key with
      | Some product_value =>
          if Py.lt product_value user_value then false
          else check_needs rest product_specs
      | None => check_needs rest product_specs
      end
  end.

Definition check_basic_requirements
    (self : RecommendationEngine) (user_needs : Needs)
    (product_specs : gmap string Q) (user_budget product_price : Q) : bool :=
  if Py.gt product_price
       (user_budget * budget_tolerance (thresholds (config self)))
  then false
  else check_needs user_needs product_specs.

(** ** Reason generation *)

Local Open Scope string_scope.
Local Open Scope list_scope.

Definition _get_need_display_name (need_key : string) : string :=
  if String.eqb need_key "data" then "流量"
  else if String.eqb need_key "calls" then "通话"
  else if String.eqb need_key "sms" then "短信"
  else need_key.

Definition _get_need_unit (need_key : string) : string :=
  if String.eqb need_key "data" then "GB"
  else if String.eqb need_key "calls" then "分钟"
  else if String.eqb need_key "sms" then "条"
  else "".

Fixpoint _analyze_need_match_reasons
    (self : RecommendationEngine) (user_needs : Needs)
    (product_specs : gmap string Q) : list text :=
  match user_needs with
  | [] => []
  | (need_key, user_value) :: rest =>
      match product_specs !! need_key with
      | Some product_value =>
          let need_name := _get_need_display_name need_key in
          let unit := _get_need_unit need_key in
          if Py.ge product_value user_value then
            let perfect_match_threshold :=
              user_value * perfect_match_ratio (thresholds (config self)) in
            if Py.le product_value perfect_match_threshold then
              [Lit need_name; Num product_value; Lit unit; Lit "完全满足您";
               Num user_value; Lit unit; Lit "的需求"]
              :: _analyze_need_match_reasons self rest product_specs
            else
              let excess := product_value - user_value in
              [Lit need_name; Num product_value; Lit unit; Lit "充足，比需求多";
               Num1f excess; Lit unit]
              :: _analyze_need_match_reasons self rest product_specs
          else _analyze_need_match_reasons self rest product_specs
      | None => _analyze_need_match_reasons self rest product_specs
      end
  end.

Definition _analyze_price_reasons
    (self : RecommendationEngine) (user_budget product_price : Q) : list text :=
  if Py.le product_price user_budget then
    let savings := user_budget - product_price in
    if Py.ge savings 20 then
      [[Lit "价格"; Num product_price; Lit "元，比预算节省"; Num savings; Lit "元"]]
    else
      [[Lit "价格"; Num product_price; Lit "元，在预算范围内"]]
  else if Py.le product_price
            (user_budget * budget_tolerance (thresholds (config self))) then
    let excess := product_price - user_budget in
    [[Lit "价格"; Num product_price; Lit "元，超预算"; Num excess;
      Lit "元但性价比高"]]
  else [].

(** [sep.join(parts)] *)
Fixpoint join (sep : string) (parts : list text) : text :=
  match parts with
  | [] => []
  | [t] => t
  | t :: rest => (t ++ Lit sep :: join sep rest)%list
  end.

Definition generate_match_reason
    (self : RecommendationEngine) (user_needs : Needs) (user_budget : Q)
    (product : Product) : text :=
  let product_specs := default ∅ (specs product) in
  let product_price :=
    default (default 0 (price product)) (product_specs !! "price") in
  let need_reasons := _analyze_need_match_reasons self user_needs product_specs in
  let price_reasons := _analyze_price_reasons self user_budget product_price in
  join "；" (need_reasons ++ price_reasons)%list.

(** ** Evaluation and ranking *)

Definition _evaluate_single_product
    (self : RecommendationEngine) (user_needs : Needs) (user_budget : Q)
    (product : Product) : option Recommendation :=
  let product_specs := default ∅ (specs product) in
  let product_price :=
    default (default 0 (price product)) (product_specs !! "price") in
  if negb (check_basic_requirements self user_needs product_specs
             user_budget product_price)
  then None
  else
    let usage_score := calculate_usage_score self user_needs product_specs in
    let price_score := calculate_price_score user_budget product_price in
    let final_score := _calculate_weighted_score self usage_score price_score in
    let match_reason := generate_match_reason self user_needs user_budget product in
    Some {| product := product;
            score := Py.round2 final_score;
            usage_score := Py.round2 usage_score;
            price_score := Py.round2 price_score;
            match_reason := match_reason |}.

(** [list.sort(key=score, reverse=True)] is a stable sort into descending
    order of the key.  For a total preorder on keys the result of a stable
    sort is unique, so it is modelled by stable insertion: an element is put
    in front of the first element of the sorted tail whose key is not
    strictly greater than its own. *)
Fixpoint insert_desc (r : Recommendation) (sorted : list Recommendation)
    : list Recommendation :=
  match sorted with
  | [] => [r]
  | r' :: rest =>
      if Py.gt (score r') (score r) then r' :: insert_desc r rest
      else r :: r' :: rest
  end.

Fixpoint sort_desc (recommendations : list Recommendation) : list Recommendation :=
  match recommendations with
  | [] => []
  | r :: rest => insert_desc r (sort_desc rest)
  end.

Definition _sort_and_limit_recommendations
    (self : RecommendationEngine) (recommendations : list Recommendation)
    : list Recommendation :=
  Py.slice_to (sort_desc recommendations) (max_recommendations (config self)).

(** The loop of [recommend]: the recommendations of the eligible products,
    in catalog order. *)
Fixpoint evaluate_products
    (self : RecommendationEngine) (user_needs : Needs) (user_budget : Q)
    (products : list Product) : list Recommendation :=
  match products with
  | [] => []
  | product :: rest =>
      match _evaluate_single_product self user_needs user_budget product with
      | Some recommendation =>
          recommendation :: evaluate_products self user_needs user_budget rest
      | None => evaluate_products self user_needs user_budget rest
      end
  end.

Definition recommend
    (self : RecommendationEngine) (user_needs : Needs) (user_budget : Q)
    (products : list Product) : list Recommendation :=
  _sort_and_limit_recommendations self
    (evaluate_products self user_needs user_budget products).

(** ** The engine as an object with state *)

(** The pure functions above take the engine and their arguments as values.
    The methods on the path of [recommend] are given here a second time as
    state transformers, so that what a call leaves behind can be stated: a
    value of [Call A] gets the state before the call and returns a result
    with the state after it.  The state holds what a call of [recommend] can
    reach, and so could change: the engine object with its configuration,
    and the two objects its caller hands over by reference, the needs dict
    and the list of product dicts.  A statement of the source that reads
    [self.config] is a [self_config] here; the source assigns nothing to
    these objects on this path, so no [set_config] occurs in it. *)
Module Stateful.

Record World : Type := {
  the_engine : RecommendationEngine;
  the_needs : Needs;
  the_products : list Product
}.

Definition Call (A : Type) : Type := World -> A * World.

#[export] Instance call_ret : MRet Call := fun A (a : A) w => (a, w).

#[export] Instance call_bind : MBind Call :=
  fun A B (k : A -> Call B) (m : Call A) w => let (a, w') := m w in k a w'.

Definition self_config : Call Config := fun w => (config (the_engine w), w).

Definition arg_needs : Call Needs := fun w => (the_needs w, w).

Definition arg_products : Call (list Product) := fun w => (the_products w, w).

Definition set_config (cfg : Config) : Call unit :=
  fun w => (tt, {| the_engine := {| config := cfg |};
                   the_needs := the_needs w;
                   the_products := the_products w |}).

Fixpoint _calculate_satisfaction_scores
    (user_needs : Needs) (product_specs : gmap string Q) : Call (list Q) :=
  match user_needs with
  | [] => mret []
  | (need_key, user_value) :: rest =>
      match product_specs !! need_key with
      | Some product_value =>
          let satisfaction :=
            if Py.gt user_value 0
            then Py.min (product_value / user_value) 2
            else 1 in
          scores ← _calculate_satisfaction_scores rest product_specs;
          mret (satisfaction :: scores)
      | None => _calculate_satisfaction_scores rest product_specs
      end
  end.

Fixpoint _calculate_waste_penalties
    (user_needs : Needs) (product_specs : gmap string Q) : Call (list Q) :=
  match user_needs with
  | [] => mret []
  | (need_key, user_value) :: rest =>
      match product_specs !! need_key with
      | Some product_value =>
          if Py.gt user_value 0 then
            if Py.gt product_value user_value then
              let waste_ratio := (product_value - user_value) / user_value in
              penalties ← _calculate_waste_penalties rest product_specs;
              mret (waste_ratio :: penalties)
            else _calculate_waste_penalties rest product_specs
          else _calculate_waste_penalties rest product_specs
      | None => _calculate_waste_penalties rest product_specs
      end
  end.

Definition _compute_final_usage_score (scores penalties : list Q) : Call Q :=
  let avg_score :=
    match scores with [] => 0 | _ => Py.sum scores / Py.len scores end in
  let avg_penalty :=
    match penalties with [] => 0 | _ => Py.sum penalties / Py.len penalties end in
  cfg ← self_config;
  let final_score := avg_score - avg_penalty * waste_penalty (thresholds cfg) in
  mret (Py.max final_score 0).

Definition calculate_usage_score
    (user_needs : Needs) (product_specs : gmap string Q) : Call Q :=
  scores ← _calculate_satisfaction_scores user_needs product_specs;
  penalties ← _calculate_waste_penalties user_needs product_specs;
  _compute_final_usage_score scores penalties.

Definition calculate_price_score (user_budget product_price : Q) : Call Q :=
  if Py.le product_price 0 then mret 0
  else mret (user_budget / product_price).

Definition _calculate_weighted_score (usage_score price_score : Q) : Call Q :=
  cfg ← self_config;
  mret (usage_score * usage_match (score_weights cfg)
        + price_score * price_advantage (score_weights cfg)).

Definition check_basic_requirements
    (user_needs : Needs) (product_specs : gmap string Q)
    (user_budget product_price : Q) : Call bool :=
  cfg ← self_config;
  if Py.gt product_price (user_budget * budget_tolerance (thresholds cfg))
  then mret false
  else mret (check_needs user_needs product_specs).

Fixpoint _analyze_need_match_reasons
    (user_needs : Needs) (product_specs : gmap string Q) : Call (list text) :=
  match user_needs with
  | [] => mret []
  | (need_key, user_value) :: rest =>
      match product_specs !! need_key with
      | Some product_value =>
          let need_name := _get_need_display_name need_key in
          let unit := _get_need_unit need_key in
          if Py.ge product_value user_value then
            cfg ← self_config;
            let perfect_match_threshold :=
              user_value * perfect_match_ratio (thresholds cfg) in
            if Py.le product_value perfect_match_threshold then
              reasons ← _analyze_need_match_reasons rest product_specs;
              mret ([Lit need_name; Num product_value; Lit unit;
                     Lit "完全满足您"; Num user_value; Lit unit; Lit "的需求"]
                    :: reasons)
            else
              let excess := product_value - user_value in
              reasons ← _analyze_need_match_reasons rest product_specs;
              mret ([Lit need_name; Num product_value; Lit unit;
                     Lit "充足，比需求多"; Num1f excess; Lit unit]
                    :: reasons)
          else _analyze_need_match_reasons rest product_specs
      | None => _analyze_need_match_reasons rest product_specs
      end
  end.

Definition _analyze_price_reasons (user_budget product_price : Q)
    : Call (list text) :=
  if Py.le product_price user_budget then
    let savings := user_budget - product_price in
    if Py.ge savings 20 then
      mret [[Lit "价格"; Num product_price; Lit "元，比预算节省"; Num savings;
             Lit "元"]]
    else
      mret [[Lit "价格"; Num product_price; Lit "元，在预算范围内"]]
  else
    cfg ← self_config;
    if Py.le product_price (user_budget * budget_tolerance (thresholds cfg))
    then
      let excess := product_price - user_budget in
      mret [[Lit "价格"; Num product_price; Lit "元，超预算"; Num excess;
             Lit "元但性价比高"]]
    else mret [].

Definition generate_match_reason
    (user_needs : Needs) (user_budget : Q) (product : Product) : Call text :=
  let product_specs := default ∅ (specs product) in
  let product_price :=
    default (default 0 (price product)) (product_specs !! "price") in
  need_reasons ← _analyze_need_match_reasons user_needs product_specs;
  price_reasons ← _analyze_price_reasons user_budget product_price;
  mret (join "；" (need_reasons ++ price_reasons)).

Definition _evaluate_single_product
    (user_needs : Needs) (user_budget : Q) (product : Product)
    : Call (option Recommendation) :=
  let product_specs := default ∅ (specs product) in
  let product_price :=
    default (default 0 (price product)) (product_specs !! "price") in
  accepted ← check_basic_requirements user_needs product_specs user_budget
               product_price;
  if negb accepted then mret None
  else
    usage_score ← calculate_usage_score user_needs product_specs;
    price_score ← calculate_price_score user_budget product_price;
    final_score ← _calculate_weighted_score usage_score price_score;
    match_reason ← generate_match_reason user_needs user_budget product;
    mret (Some {| product := product;
                  score := Py.round2 final_score;
                  usage_score := Py.round2 usage_score;
                  price_score := Py.round2 price_score;
                  match_reason := match_reason |}).

Definition _sort_and_limit_recommendations
    (recommendations : list Recommendation) : Call (list Recommendation) :=
  let recommendations := sort_desc recommendations in
  cfg ← self_config;
  mret (Py.slice_to recommendations (max_recommendations cfg)).

(** The loop of [recommend], appending to the local list. *)
Fixpoint evaluate_products
    (user_needs : Needs) (user_budget : Q) (products : list Product)
    (recommendations : list Recommendation) : Call (list Recommendation) :=
  match products with
  | [] => mret recommendations
  | product :: rest =>
      recommendation ←
        _evaluate_single_product user_needs user_budget product;
      match recommendation with
      | Some r =>
          evaluate_products user_needs user_budget rest (recommendations ++ [r])
      | None => evaluate_products user_needs user_budget rest recommendations
      end
  end.

Definition recommend
    (user_needs : Needs) (user_budget : Q) (products : list Product)
    : Call (list Recommendation) :=
  recommendations ← evaluate_products user_needs user_budget products [];
  _sort_and_limit_recommendations recommendations.

(** A call [engine.recommend(user_needs, user_budget, products)] by a caller
    that owns the needs and the product list. *)
Definition call_recommend (user_budget : Q) : Call (list Recommendation) :=
  user_needs ← arg_needs;
  products ← arg_products;
  recommend user_needs user_budget products.

(** The body of a configuration request of the API server: the sub-dicts it
    may carry, and a new [max_recommendations]. *)
Record ConfigRequest : Type := {
  request_score_weights : option (gmap string Q);
  request_thresholds : option (gmap string Q);
  request_max_recommendations : option Z
}.

(** The writes of [_handle_config_update] of the API server: [dict.update]
    on the two sub-dicts and the assignment of [max_recommendations].  Keys
    that the engine never reads are dropped; the response is not modelled. *)
Definition _handle_config_update (request_data : ConfigRequest) : Call unit :=
  cfg ← self_config;
  let weights :=
    match request_score_weights request_data with
    | Some new =>
        {| usage_match :=
             default (usage_match (score_weights cfg)) (new !! "usage_match");
           price_advantage :=
             default (price_advantage (score_weights cfg))
               (new !! "price_advantage") |}
    | None => score_weights cfg
    end in
  let limits :=
    match request_thresholds request_data with
    | Some new =>
        {| budget_tolerance :=
             default (budget_tolerance (thresholds cfg))
               (new !! "budget_tolerance");
           waste_penalty :=
             default (waste_penalty (thresholds cfg)) (new !! "waste_penalty");
           perfect_match_ratio :=
             default (perfect_match_ratio (thresholds cfg))
               (new !! "perfect_match_ratio") |}
    | None => thresholds cfg
    end in
  set_config {| score_weights := weights;
                thresholds := limits;
                max_recommendations :=
                  default (max_recommendations cfg)
                    (request_max_recommendations request_data) |}.

End Stateful.

(** ** No-match diagnosis *)

Definition _is_over_budget_but_specs_satisfy
    (self : RecommendationEngine) (product_specs : gmap string Q)
    (user_needs : Needs) (product_price user_budget : Q) : bool :=
  let specs_satisfy :=
    forallb (fun '(key, value) => Py.ge (default 0 (product_specs !! key)) value)
      user_needs in
  let budget_tolerance :=
    user_budget * budget_tolerance (thresholds (config self)) in
  specs_satisfy && Py.gt product_price budget_tolerance.

(** [if key not in d: d[key] = []] followed by [d[key].append(product)], on
    a dict kept in insertion order. *)
Fixpoint dict_append (key : string) (product : Product)
    (d : list (string * list Product)) : list (string * list Product) :=
  match d with
  | [] => [(key, [product])]
  | (k, products_list) :: rest =>
      if String.eqb k key then (k, (products_list ++ [product])%list) :: rest
      else (k, products_list) :: dict_append key product rest
  end.

(** The loop over [user_needs.items()] of [_check_insufficient_specs]. *)
Fixpoint record_insufficient
    (product_specs : gmap string Q) (user_needs : Needs) (product : Product)
    (analysis : Diagnosis) : Diagnosis :=
  match user_needs with
  | [] => analysis
  | (need_key, user_value) :: rest =>
      if Py.lt (default 0 (product_specs !! need_key)) user_value then
        record_insufficient product_specs rest product
          {| over_budget_products := over_budget_products analysis;
             insufficient_specs :=
               dict_append need_key product (insufficient_specs analysis);
             suggestions := suggestions analysis |}
      else record_insufficient product_specs rest product analysis
  end.

Definition _check_insufficient_specs
    (self : RecommendationEngine) (product_specs : gmap string Q)
    (product_price : Q) (user_needs : Needs) (user_budget : Q)
    (analysis : Diagnosis) (product : Product) : Diagnosis :=
  let budget_tolerance :=
    user_budget * budget_tolerance (thresholds (config self)) in
  if Py.le product_price budget_tolerance
  then record_insufficient product_specs user_needs product analysis
  else analysis.

Fixpoint _analyze_product_mismatch
    (self : RecommendationEngine) (products : list Product)
    (user_needs : Needs) (user_budget : Q) (analysis : Diagnosis) : Diagnosis :=
  match products with
  | [] => analysis
  | product :: rest =>
      let product_specs := default ∅ (specs product) in
      let product_price :=
        default (default 0 (price product)) (product_specs !! "price") in
      let analysis1 :=
        if _is_over_budget_but_specs_satisfy self product_specs user_needs
             product_price user_budget
        then {| over_budget_products :=
                  (over_budget_products analysis ++ [product])%list;
                insufficient_specs := insufficient_specs analysis;
                suggestions := suggestions analysis |}
        else analysis in
      let analysis2 :=
        _check_insufficient_specs self product_specs product_price user_needs
          user_budget analysis1 product in
      _analyze_product_mismatch self rest user_needs user_budget analysis2
  end.

(** The loop over [analysis["insufficient_specs"].items()]: the suggestions
    it appends, or [None] when [max()] raises. *)
Fixpoint spec_suggestions (entries : list (string * list Product))
    : option (list text) :=
  match entries with
  | [] => Some []
  | (need_key, products_list) :: rest =>
      max_spec ← Py.max_of
        (map (fun prod => default 0 (default ∅ (specs prod) !! need_key))
           products_list);
      let need_name := _get_need_display_name need_key in
      let unit := _get_need_unit need_key in
      more ← spec_suggestions rest;
      Some ([Lit "降低"; Lit need_name; Lit "需求至"; Num max_spec; Lit unit]
            :: more)
  end.

Definition _generate_improvement_suggestions
    (analysis : Diagnosis) (user_needs : Needs) : option Diagnosis :=
  budget_part ←
    match over_budget_products analysis with
    | [] => Some []
    | _ =>
        min_price ← Py.min_of
          (map (fun prod =>
                  default (default 0 (price prod))
                    (default ∅ (specs prod) !! "price"))
             (over_budget_products analysis));
        Some [[Lit "适当提高预算至"; Num min_price; Lit "元"]]
    end;
  spec_part ← spec_suggestions (insufficient_specs analysis);
  Some {| over_budget_products := over_budget_products analysis;
          insufficient_specs := insufficient_specs analysis;
          suggestions :=
            (suggestions analysis ++ budget_part ++ spec_part)%list |}.

Definition analyze_no_match_reason
    (self : RecommendationEngine) (user_needs : Needs) (user_budget : Q)
    (products : list Product) : option Diagnosis :=
  let analysis :=
    {| over_budget_products := []; insufficient_specs := []; suggestions := [] |} in
  let analysis :=
    _analyze_product_mismatch self products user_needs user_budget analysis in
  _generate_improvement_suggestions analysis user_needs.

(** ** Sample data: the catalog and the request of the module's example *)

Definition product_A : Product := {|
  name := "产品A";
  specs := Some (<["data" := 30]> (<["calls" := 500]> (<["price" := 100]> ∅)));
  price := None;
  features := ["特性1"; "特性2"]
|}.

Definition product_B : Product := {|
  name := "产品B";
  specs := Some (<["data" := 50]> (<["calls" := 800]> (<["price" := 150]> ∅)));
  price := None;
  features := ["特性3"; "特性4"]
|}.

(** A product that carries no price, neither in its specs nor at top level. *)
Definition product_unpriced : Product := {|
  name := "产品C";
  specs := Some (<["data" := 30]> (<["calls" := 500]> ∅));
  price := None;
  features := []
|}.

Definition sample_needs : Needs := [("data", 25); ("calls", 400)].

Definition default_engine : RecommendationEngine := __init__ None.

(** A product that lacks the ["data"] attribute. *)
Definition product_no_data : Product := {|
  name := "产品D";
  specs := Some (<["price" := 10]> ∅);
  price := None;
  features := []
|}.

(** The default engine with the sample needs and the two sample products in
    the hands of its caller. *)
Definition sample_world : Stateful.World := {|
  Stateful.the_engine := default_engine;
  Stateful.the_needs := sample_needs;
  Stateful.the_products := [product_A; product_B]
|}.

(** ** Definitions used to state the properties *)

(** The price of a product in the words of the specification: the ["price"]
    entry of its ["specs"] if present, otherwise its top-level ["price"] if
    present, otherwise 0. *)
Definition price_fallback (p : Product) : Q :=
  match specs p with
  | Some sp =>
      match sp !! "price" with
      | Some v => v
      | None => match price p with Some v => v | None => 0 end
      end
  | None => match price p with Some v => v | None => 0 end
  end.

(** The specs mapping of a product, empty when the product has none. *)
Definition specs_of (p : Product) : gmap string Q :=
  match specs p with Some sp => sp | None => ∅ end.

(** A product passes the eligibility filter. *)
Definition eligible (self : RecommendationEngine) (user_needs : Needs)
    (user_budget : Q) (p : Product) : bool :=
  check_basic_requirements self user_needs (specs_of p) user_budget
    (price_fallback p).

(** The satisfaction list in the words of the specification: a requested
    attribute that the spec lacks counts with spec value 0. *)
Fixpoint satisfaction_absent_as_zero
    (user_needs : Needs) (product_specs : gmap string Q) : list Q :=
  match user_needs with
  | [] => []
  | (need_key, user_value) :: rest =>
      let spec_value := default 0 (product_specs !! need_key) in
      (if Py.gt user_value 0 then Py.min (spec_value / user_value) 2 else 1)
      :: satisfaction_absent_as_zero rest product_specs
  end.

(** [m] is a least, respectively greatest, element of [l]. *)
Definition is_min_of (m : Q) (l : list Q) : Prop :=
  In m l /\ forall x, In x l -> m <= x.

Definition is_max_of (m : Q) (l : list Q) : Prop :=
  In m l /\ forall x, In x l -> x <= m.

(** Descending order of the score, and the recommendations that tie at a
    given score. *)
Definition desc (a b : Recommendation) : Prop := score b <= score a.

Definition same_score (s : Q) (r : Recommendation) : bool := Py.eqb (score r) s.

(** The two tests of the diagnosis, on a product: every need is met when an
    absent attribute counts as 0, and the price is within the tolerated
    budget. *)
Definition specs_satisfy (product_specs : gmap string Q) (user_needs : Needs)
    : bool :=
  forallb (fun '(key, value) => Py.ge (default 0 (product_specs !! key)) value)
    user_needs.

Definition within_tolerance (self : RecommendationEngine) (user_budget : Q)
    (p : Product) : bool :=
  Py.le (price_fallback p)
    (user_budget * budget_tolerance (thresholds (config self))).

(** The product falls short of the need [(key, value)], absent counting as 0. *)
Definition short_of (key : string) (value : Q) (p : Product) : bool :=
  Py.lt (default 0 (specs_of p !! key)) value.

(** [d.get(key, [])] on a dict kept in insertion order. *)
Fixpoint dict_get (key : string) (d : list (string * list Product))
    : list Product :=
  match d with
  | [] => []
  | (k, products_list) :: rest =>
      if String.eqb k key then products_list else dict_get key rest
  end.

(** One turn of the loop of [_analyze_product_mismatch], with the price and
    the specs of the product resolved. *)
Definition scan_product (self : RecommendationEngine) (user_needs : Needs)
    (user_budget : Q) (p : Product) (analysis : Diagnosis) : Diagnosis :=
  _check_insufficient_specs self (specs_of p) (price_fallback p) user_needs
    user_budget
    (if _is_over_budget_but_specs_satisfy self (specs_of p) user_needs
          (price_fallback p) user_budget
     then {| over_budget_products := over_budget_products analysis ++ [p];
             insufficient_specs := insufficient_specs analysis;
             suggestions := suggestions analysis |}
     else analysis)
    p.

(** What one scan of the needs records for [p] under [key]: one copy for
    every entry of the needs with that key that [p] falls short of. *)
Definition recorded_under (key : string) (user_needs : Needs) (p : Product)
    : list Product :=
  flat_map (fun '(k, v) => if String.eqb k key && short_of k v p then [p] else [])
    user_needs.

(** The [analysis] dict as [analyze_no_match_reason] creates it. *)
Definition empty_analysis : Diagnosis :=
  {| over_budget_products := []; insufficient_specs := []; suggestions := [] |}.

(** ** Catalog sources (data_sources.py) *)

(** A data source, seen through its two methods: every class of the module
    returns a stored carrier name and a stored list of packages. *)
Record DataSource : Type := {
  get_carrier_name : string;
  get_packages : list Product
}.

Record DataSourceManager : Type := {
  data_sources : list DataSource
}.

(** [self.data_sources.append(source)] *)
Definition register_source (self : DataSourceManager) (source : DataSource)
    : DataSourceManager :=
  {| data_sources := data_sources self ++ [source] |}.

(** The loop of [get_all_packages]: [all_packages.extend(packages)] for every
    source in registration order. *)
Fixpoint extend_all (sources : list DataSource) : list Product :=
  match sources with
  | [] => []
  | source :: rest => get_packages source ++ extend_all rest
  end.

Definition get_all_packages (self : DataSourceManager) : list Product :=
  extend_all (data_sources self).

(** The loop of [get_packages_by_carrier]: the packages of the first source
    with that carrier name, [[]] when there is none. *)
Fixpoint first_of_carrier (sources : list DataSource) (carrier_name : string)
    : list Product :=
  match sources with
  | [] => []
  | source :: rest =>
      if String.eqb (get_carrier_name source) carrier_name
      then get_packages source
      else first_of_carrier rest carrier_name
  end.

Definition get_packages_by_carrier (self : DataSourceManager)
    (carrier_name : string) : list Product :=
  first_of_carrier (data_sources self) carrier_name.

Definition get_available_carriers (self : DataSourceManager) : list string :=
  map get_carrier_name (data_sources self).

(** [_get_packages_for_recommendation] of the API server: [carrier_filter] is
    [request_data.get('carrier')], falsy when missing or the empty string. *)
Definition _get_packages_for_recommendation (data_manager : DataSourceManager)
    (carrier_filter : option string) : list Product :=
  match carrier_filter with
  | Some carrier =>
      if String.eqb carrier "" then get_all_packages data_manager
      else get_packages_by_carrier data_manager carrier
  | None => get_all_packages data_manager
  end.

(** ** Validation of package data (data_sources.py) *)

(** The values of a decoded JSON document, as far as the validation tells
    them apart.  A Python [bool] is an [int], so it passes
    [isinstance(v, (int, float))]. *)
Inductive json : Type :=
  | JNull
  | JBool (b : bool)
  | JNumber (q : Q)
  | JString (s : string)
  | JOther.

(** A package as submitted for validation: the ["name"] and ["specs"]
    entries may be missing; ["specs"], when present, is an object whose
    entries hold arbitrary values. *)
Record Package : Type := {
  package_name : option json;
  package_specs : option (gmap string json)
}.

Definition is_number (v : json) : bool :=
  match v with
  | JNumber _ | JBool _ => true
  | _ => false
  end.

(** [field in package] for the two fields the validation asks for. *)
Definition has_field (package : Package) (field : string) : bool :=
  if String.eqb field "name" then bool_decide (is_Some (package_name package))
  else if String.eqb field "specs" then bool_decide (is_Some (package_specs package))
  else false.

Definition required_fields : list string := ["name"; "specs"].
Definition required_specs : list string := ["data"; "calls"; "price"].

Definition index_piece (i : nat) : piece := Num (inject_Z (Z.of_nat i)).

Definition check_field (i : nat) (package : Package) (field : string)
    : list text :=
  if negb (has_field package field)
  then [[Lit "套餐 "; index_piece i; Lit ": 缺少字段 '"; Lit field; Lit "'"]]
  else [].

Definition check_spec (i : nat) (specs : gmap string json) (spec : string)
    : list text :=
  match specs !! spec with
  | None =>
      [[Lit "套餐 "; index_piece i; Lit ": specs缺少字段 '"; Lit spec; Lit "'"]]
  | Some v =>
      if negb (is_number v)
      then [[Lit "套餐 "; index_piece i; Lit ": specs."; Lit spec;
             Lit " 应为数字类型"]]
      else []
  end.

(** The body of the loop over [enumerate(packages)]. *)
Definition validate_package (i : nat) (package : Package) : list text :=
  flat_map (check_field i package) required_fields
  ++ match package_specs package with
     | Some specs => flat_map (check_spec i specs) required_specs
     | None => []
     end.

Fixpoint validate_from (i : nat) (packages : list Package) : list text :=
  match packages with
  | [] => []
  | package :: rest => validate_package i package ++ validate_from (S i) rest
  end.

Definition validate_package_data (packages : list Package) : list text :=
  validate_from 0 packages.

(** A package the validation has nothing to say about. *)
Definition well_formed_package (package : Package) : Prop :=
  is_Some (package_name package) /\
  exists specs, package_specs package = Some specs /\
    forall spec, In spec required_specs ->
      exists v, specs !! spec = Some v /\ is_number v = true.

(** The recommendation of product A for the sample needs at budget 120. *)
Definition sample_recommendation : Recommendation := {|
  product := product_A;
  score := 120 # 100;
  usage_score := 120 # 100;
  price_score := 120 # 100;
  match_reason := generate_match_reason default_engine sample_needs 120 product_A
|}.

(** A manager with one registered source, and two submitted packages. *)
Definition sample_manager : DataSourceManager :=
  register_source {| data_sources := [] |}
    {| get_carrier_name := "中国移动"; get_packages := [product_A; product_B] |}.

Definition package_complete : Package := {|
  package_name := Some (JString "测试");
  package_specs :=
    Some (<["data" := JNumber 30]>
            (<["calls" := JNumber 500]> (<["price" := JNumber 100]> ∅)))
|}.

Definition package_broken : Package := {|
  package_name := None;
  package_specs :=
    Some (<["data" := JString "30"]> (<["price" := JNumber 100]> ∅))
|}.

(** ** Facts about the numeric primitives *)

Lemma le_true a b : Py.le a b = true <-> a <= b.
Proof. apply Qle_bool_iff. Qed.

Lemma lt_true a b : Py.lt a b = true <-> a < b.
Proof.
  unfold Py.lt. rewrite negb_true_iff. split.
  - intros H. apply Qnot_le_lt. intros Hle.
    apply Qle_bool_iff in Hle. congruence.
  - intros H. destruct (Qle_bool b a) eqn:E; [|reflexivity].
    apply Qle_bool_iff in E. exfalso. eapply Qlt_not_le; eauto.
Qed.

Lemma lt_false a b : Py.lt a b = false <-> b <= a.
Proof.
  unfold Py.lt. rewrite negb_false_iff. apply Qle_bool_iff.
Qed.

Lemma le_false a b : Py.le a b = false <-> b < a.
Proof.
  rewrite <- lt_true. unfold Py.lt, Py.le.
  destruct (Qle_bool a b); simpl; split; congruence.
Qed.

Lemma max_lower_bound a b : b <= Py.max a b.
Proof.
  unfold Py.max, Py.gt. destruct (Py.lt a b) eqn:E.
  - apply Qle_refl.
  - apply lt_false in E. exact E.
Qed.

(** ** Eligibility *)

Lemma check_needs_true needs (sp : gmap string Q) :
  check_needs needs sp = true <->
  forall k v sv, In (k, v) needs -> sp !! k = Some sv -> v <= sv.
Proof.
  induction needs as [|[k0 v0] rest IH]; simpl.
  - split; [intros _ k v sv []|reflexivity].
  - destruct (sp !! k0) as [pv|] eqn:Hk0.
    + destruct (Py.lt pv v0) eqn:Hlt.
      * split; [discriminate|]. intros H. exfalso.
        apply lt_true in Hlt. apply (Qlt_not_le _ _ Hlt).
        apply (H k0 v0 pv); auto.
      * rewrite IH. apply lt_false in Hlt. split.
        -- intros H k v sv [Heq|Hin] Hsv.
           ++ inversion Heq; subst. rewrite Hk0 in Hsv.
              inversion Hsv; subst. exact Hlt.
           ++ eapply H; eauto.
        -- intros H k v sv Hin Hsv. eapply H; eauto.
    + rewrite IH. split.
      * intros H k v sv [Heq|Hin] Hsv.
        -- inversion Heq; subst. congruence.
        -- eapply H; eauto.
      * intros H k v sv Hin Hsv. eapply H; eauto.
Qed.

(** C1: the eligibility check does not read an absent attribute as 0.  A
    product without the requested ["data"] attribute passes
    [check_basic_requirements] although 30 units are needed, and is
    recommended; [analyze_no_match_reason], which does read the absent
    attribute as 0, records the same product as insufficient on ["data"] for
    the same request. *)
Theorem absent_attribute_passes_eligibility :
  specs_of product_no_data !! "data" = None /\
  check_basic_requirements default_engine [("data", 30)]
    (specs_of product_no_data) 100 (price_fallback product_no_data) = true /\
  map product (recommend default_engine [("data", 30)] 100 [product_no_data]) =
    [product_no_data] /\
  insufficient_specs <$>
    analyze_no_match_reason default_engine [("data", 30)] 100 [product_no_data] =
    Some [("data", [product_no_data])].
Proof. repeat split; vm_compute; reflexivity. Qed.

(** ** Scoring *)

Lemma satisfaction_scores_app l1 l2 (sp : gmap string Q) :
  _calculate_satisfaction_scores (l1 ++ l2) sp =
  (_calculate_satisfaction_scores l1 sp ++ _calculate_satisfaction_scores l2 sp)%list.
Proof.
  induction l1 as [|[k v] l1 IH]; simpl; [reflexivity|].
  destruct (sp !! k); rewrite IH; reflexivity.
Qed.

Lemma waste_penalties_app l1 l2 (sp : gmap string Q) :
  _calculate_waste_penalties (l1 ++ l2) sp =
  (_calculate_waste_penalties l1 sp ++ _calculate_waste_penalties l2 sp)%list.
Proof.
  induction l1 as [|[k v] l1 IH]; simpl; [reflexivity|].
  destruct (sp !! k); [|exact IH].
  destruct (Py.gt v 0); [|exact IH].
  destruct (Py.gt _ v); rewrite IH; reflexivity.
Qed.

(** C2 (as the code has it): an attribute that is requested but absent from
    the spec is skipped by the scoring.  It adds no entry, neither 0 nor any
    other value, to the satisfaction list, so the usage score is the one of
    the needs without that attribute: the average runs over the attributes
    present in both mappings. *)
Theorem usage_score_skips_absent
    (self : RecommendationEngine) (l1 l2 : Needs) (k : string) (v : Q)
    (sp : gmap string Q) :
  sp !! k = None ->
  _calculate_satisfaction_scores (l1 ++ (k, v) :: l2) sp =
    _calculate_satisfaction_scores (l1 ++ l2) sp /\
  calculate_usage_score self (l1 ++ (k, v) :: l2) sp =
    calculate_usage_score self (l1 ++ l2) sp.
Proof.
  intros Hk.
  assert (Hs : _calculate_satisfaction_scores (l1 ++ (k, v) :: l2) sp =
               _calculate_satisfaction_scores (l1 ++ l2) sp).
  { rewrite !satisfaction_scores_app. simpl. rewrite Hk. reflexivity. }
  assert (Hp : _calculate_waste_penalties (l1 ++ (k, v) :: l2) sp =
               _calculate_waste_penalties (l1 ++ l2) sp).
  { rewrite !waste_penalties_app. simpl. rewrite Hk. reflexivity. }
  split; [exact Hs|].
  unfold calculate_usage_score. rewrite Hs, Hp. reflexivity.
Qed.

Lemma usage_score_skips_absent_witness :
  calculate_usage_score default_engine
    ([("data", 30)] ++ ("calls", 500) :: []) {["data" := 30]} =
  calculate_usage_score default_engine ([("data", 30)] ++ []) {["data" := 30]}.
Proof.
  apply (usage_score_skips_absent default_engine [("data", 30)] []
           "calls" 500 {["data" := 30]}).
  vm_compute. reflexivity.
Defined.

(** C2, counterexample to an absent attribute counting as satisfaction 0:
    with ["calls"] requested and absent the code averages over ["data"] alone
    and scores 1, where counting the absent attribute with satisfaction 0
    gives two entries and the average 1/2. *)
Lemma usage_score_absent_counterexample :
  ({["data" := 30]} : gmap string Q) !! "calls" = None /\
  length (_calculate_satisfaction_scores [("data", 30); ("calls", 500)]
            {["data" := 30]}) = 1%nat /\
  length (satisfaction_absent_as_zero [("data", 30); ("calls", 500)]
            {["data" := 30]}) = 2%nat /\
  calculate_usage_score default_engine [("data", 30); ("calls", 500)]
    {["data" := 30]} == 1 /\
  _compute_final_usage_score default_engine
    (satisfaction_absent_as_zero [("data", 30); ("calls", 500)] {["data" := 30]})
    (_calculate_waste_penalties [("data", 30); ("calls", 500)] {["data" := 30]})
    == 1 # 2.
Proof. repeat split. Qed.

(** C5: the price score is [budget / price] for a positive price and 0 for a
    price that is zero or negative; the function is total, the division is
    never reached with a divisor that is not positive. *)
Theorem calculate_price_score_guarded (budget pr : Q) :
  (0 < pr -> calculate_price_score budget pr = budget / pr) /\
  (pr <= 0 -> calculate_price_score budget pr = 0).
Proof.
  unfold calculate_price_score. split; intros H.
  - apply le_false in H. rewrite H. reflexivity.
  - apply le_true in H. rewrite H. reflexivity.
Qed.

Lemma calculate_price_score_guarded_witness :
  calculate_price_score 150 100 = 150 / 100 /\
  calculate_price_score 150 0 = 0 /\
  calculate_price_score 150 (-5) = 0.
Proof.
  split; [|split].
  - apply (proj1 (calculate_price_score_guarded 150 100)). reflexivity.
  - apply (proj2 (calculate_price_score_guarded 150 0)). discriminate.
  - apply (proj2 (calculate_price_score_guarded 150 (-5))). discriminate.
Defined.

Lemma usage_score_nonneg (self : RecommendationEngine) (needs : Needs)
    (sp : gmap string Q) :
  0 <= calculate_usage_score self needs sp.
Proof.
  unfold calculate_usage_score, _compute_final_usage_score.
  apply max_lower_bound.
Qed.

Lemma price_score_nonneg (budget pr : Q) :
  0 <= budget -> 0 <= calculate_price_score budget pr.
Proof.
  intros Hb. unfold calculate_price_score.
  destruct (Py.le pr 0) eqn:E; [apply Qle_refl|].
  apply le_false in E. unfold Qdiv.
  apply Qmult_le_0_compat; [exact Hb|].
  apply Qlt_le_weak, Qinv_lt_0_compat, E.
Qed.

(** C6 (as the code has it): the usage score is never negative; the price
    score is never negative when the budget is not negative. *)
Theorem score_bounds
    (self : RecommendationEngine) (needs : Needs) (sp : gmap string Q)
    (budget pr : Q) :
  0 <= calculate_usage_score self needs sp /\
  (0 <= budget -> 0 <= calculate_price_score budget pr).
Proof.
  split; [apply usage_score_nonneg|apply price_score_nonneg].
Qed.

Lemma score_bounds_witness :
  0 <= calculate_usage_score default_engine sample_needs (specs_of product_A) /\
  0 <= calculate_price_score 120 100.
Proof.
  destruct (score_bounds default_engine sample_needs (specs_of product_A) 120 100)
    as [Hu Hp].
  split; [exact Hu|apply Hp; discriminate].
Defined.

(** C6, counterexample to a price score that is never negative: a negative
    budget against a positive price gives a negative price score. *)
Lemma price_score_negative_counterexample :
  calculate_price_score (-1) 1 == -1 /\ ~ 0 <= calculate_price_score (-1) 1.
Proof. split; [reflexivity|]. intros H. apply H. reflexivity. Qed.

(** ** Evaluation of a product *)

Lemma price_resolution (p : Product) :
  default (default 0 (price p)) (default ∅ (specs p) !! "price") =
  price_fallback p.
Proof.
  unfold price_fallback. destruct (specs p) as [sp|]; simpl.
  - destruct (sp !! "price"); destruct (price p); reflexivity.
  - rewrite lookup_empty. destruct (price p); reflexivity.
Qed.

Lemma within_tolerance_of_check self needs (sp : gmap string Q) budget pr :
  check_basic_requirements self needs sp budget pr = true ->
  pr <= budget * budget_tolerance (thresholds (config self)).
Proof.
  unfold check_basic_requirements, Py.gt.
  destruct (Py.lt _ pr) eqn:Hlt; [discriminate|].
  intros _. apply lt_false in Hlt. exact Hlt.
Qed.

Lemma evaluate_single_eligible self needs budget p :
  _evaluate_single_product self needs budget p =
  if eligible self needs budget p
  then Some {| product := p;
               score := Py.round2
                 (_calculate_weighted_score self
                    (calculate_usage_score self needs (specs_of p))
                    (calculate_price_score budget (price_fallback p)));
               usage_score := Py.round2
                 (calculate_usage_score self needs (specs_of p));
               price_score := Py.round2
                 (calculate_price_score budget (price_fallback p));
               match_reason := generate_match_reason self needs budget p |}
  else None.
Proof.
  unfold _evaluate_single_product, eligible.
  rewrite price_resolution. fold (specs_of p).
  destruct (check_basic_requirements _ _ _ _ _); reflexivity.
Qed.

Lemma evaluate_single_Some self needs budget p r :
  _evaluate_single_product self needs budget p = Some r ->
  product r = p /\ eligible self needs budget p = true.
Proof.
  rewrite evaluate_single_eligible.
  destruct (eligible self needs budget p); [|discriminate].
  intros H. inversion H; subst. simpl. auto.
Qed.

Lemma evaluate_products_In self needs budget products r :
  In r (evaluate_products self needs budget products) ->
  In (product r) products /\ eligible self needs budget (product r) = true.
Proof.
  induction products as [|p rest IH]; simpl; [tauto|].
  destruct (_evaluate_single_product self needs budget p) as [r0|] eqn:E.
  - apply evaluate_single_Some in E as [Hp He].
    intros [<-|Hin].
    + rewrite Hp. auto.
    + destruct (IH Hin); auto.
  - intros Hin. destruct (IH Hin); auto.
Qed.

Lemma evaluate_products_catalog_order self needs budget products :
  map product (evaluate_products self needs budget products) =
  List.filter (eligible self needs budget) products.
Proof.
  induction products as [|p rest IH]; simpl; [reflexivity|].
  rewrite evaluate_single_eligible.
  destruct (eligible self needs budget p); simpl; rewrite IH; reflexivity.
Qed.

(** ** Ranking *)

Lemma insert_desc_In x r l :
  In x (insert_desc r l) <-> x = r \/ In x l.
Proof.
  induction l as [|r' rest IH]; simpl.
  - intuition.
  - destruct (Py.gt (score r') (score r)); simpl; [rewrite IH|]; intuition.
Qed.

Lemma sort_desc_In x l : In x (sort_desc l) <-> In x l.
Proof.
  induction l as [|r rest IH]; simpl; [tauto|].
  rewrite insert_desc_In, IH. intuition.
Qed.

Lemma insert_desc_sorted r l :
  StronglySorted desc l -> StronglySorted desc (insert_desc r l).
Proof.
  induction l as [|r' rest IH]; simpl; intros Hs.
  - constructor; constructor.
  - inversion Hs as [|? ? Hrest Hall]; subst.
    destruct (Py.gt (score r') (score r)) eqn:E.
    + constructor; [apply IH, Hrest|].
      apply List.Forall_forall. intros x Hx. apply insert_desc_In in Hx as [->|Hx].
      * apply lt_true in E. apply Qlt_le_weak, E.
      * rewrite List.Forall_forall in Hall. apply Hall, Hx.
    + apply lt_false in E. constructor; [exact Hs|].
      constructor; [exact E|].
      eapply List.Forall_impl; [|exact Hall].
      intros x Hx. unfold desc in *. eapply Qle_trans; eauto.
Qed.

Lemma sort_desc_sorted l : StronglySorted desc (sort_desc l).
Proof.
  induction l as [|r rest IH]; simpl; [constructor|].
  apply insert_desc_sorted, IH.
Qed.

Lemma insert_desc_stable s r l :
  List.filter (same_score s) (insert_desc r l) =
  List.filter (same_score s) (r :: l).
Proof.
  induction l as [|r' rest IH]; [reflexivity|].
  cbn [insert_desc]. destruct (Py.gt (score r') (score r)) eqn:E; [|reflexivity].
  cbn [List.filter] in *. rewrite IH.
  destruct (same_score s r') eqn:E1; destruct (same_score s r) eqn:E2;
    try reflexivity.
  exfalso. unfold same_score, Py.eqb in *.
  apply Qeq_bool_iff in E1, E2. apply lt_true in E.
  rewrite E1, E2 in E. exact (Qlt_irrefl _ E).
Qed.

Lemma sort_desc_stable s l :
  List.filter (same_score s) (sort_desc l) = List.filter (same_score s) l.
Proof.
  induction l as [|r rest IH]; [reflexivity|].
  cbn [sort_desc]. rewrite insert_desc_stable.
  cbn [List.filter]. rewrite IH. reflexivity.
Qed.

Lemma slice_to_prefix {A} (l : list A) n :
  exists rest, l = Py.slice_to l n ++ rest.
Proof.
  unfold Py.slice_to. destruct (0 <=? n)%Z.
  - exists (skipn (Z.to_nat n) l). symmetry. apply firstn_skipn.
  - eexists. symmetry. apply firstn_skipn.
Qed.

Lemma slice_to_length {A} (l : list A) n :
  (0 <= n)%Z -> (Z.of_nat (length (Py.slice_to l n)) <= n)%Z.
Proof.
  intros Hn. unfold Py.slice_to.
  destruct (Z.leb_spec 0 n); [|lia].
  pose proof (firstn_le_length (Z.to_nat n) l). lia.
Qed.

Lemma sorted_prefix l1 l2 :
  StronglySorted desc (l1 ++ l2) -> StronglySorted desc l1.
Proof.
  induction l1 as [|r l1 IH]; simpl; intros H; [constructor|].
  inversion H as [|? ? Hs Hall]; subst. constructor; [apply IH, Hs|].
  apply List.Forall_app in Hall. tauto.
Qed.

Lemma recommend_In self needs budget products r :
  In r (recommend self needs budget products) ->
  In r (evaluate_products self needs budget products).
Proof.
  unfold recommend, _sort_and_limit_recommendations. intros Hin.
  destruct (slice_to_prefix
              (sort_desc (evaluate_products self needs budget products))
              (max_recommendations (config self))) as [rest Hrest].
  apply sort_desc_In. rewrite Hrest. apply in_or_app. left. exact Hin.
Qed.

(** C3: every recommendation returned by [recommend] is for a product of the
    catalog that passed the eligibility check; the output is in descending
    order of [score]; recommendations that tie at a score keep the catalog
    order (for every score, those of the output are an initial segment of
    those of the eligible products taken in catalog order); and, for a
    [max_recommendations] that is not negative, the output has at most that
    many entries. *)
Theorem recommend_invariant
    (self : RecommendationEngine) (needs : Needs) (budget : Q)
    (products : list Product) :
  let out := recommend self needs budget products in
  let evaluated := evaluate_products self needs budget products in
  (forall r, In r out ->
     In (product r) products /\ eligible self needs budget (product r) = true) /\
  StronglySorted desc out /\
  map product evaluated = List.filter (eligible self needs budget) products /\
  (forall s, exists rest,
     List.filter (same_score s) evaluated =
     List.filter (same_score s) out ++ rest) /\
  ((0 <= max_recommendations (config self))%Z ->
   (Z.of_nat (length out) <= max_recommendations (config self))%Z).
Proof.
  intros out evaluated.
  assert (Hpre : exists rest, sort_desc evaluated = out ++ rest)
    by apply slice_to_prefix.
  destruct Hpre as [rest Hrest].
  split; [|split; [|split; [|split]]].
  - intros r Hr. apply (evaluate_products_In self needs budget products).
    apply recommend_In, Hr.
  - apply (sorted_prefix out rest). rewrite <- Hrest. apply sort_desc_sorted.
  - apply evaluate_products_catalog_order.
  - intros s. exists (List.filter (same_score s) rest).
    rewrite <- List.filter_app, <- Hrest. symmetry. apply sort_desc_stable.
  - intros Hmax. apply slice_to_length, Hmax.
Qed.

Lemma recommend_invariant_witness :
  (Z.of_nat (length (recommend default_engine sample_needs 200
                       [product_A; product_B])) <= 10)%Z.
Proof.
  destruct (recommend_invariant default_engine sample_needs 200
              [product_A; product_B]) as (_ & _ & _ & _ & Hlen).
  apply Hlen. vm_compute. discriminate.
Defined.

(** C4: a product whose price exceeds [budget * budget_tolerance] is not the
    product of any recommendation returned by [recommend], whatever its
    scores would be. *)
Theorem over_budget_never_recommended
    (self : RecommendationEngine) (needs : Needs) (budget : Q)
    (products : list Product) (p : Product) :
  In p products ->
  budget * budget_tolerance (thresholds (config self)) < price_fallback p ->
  ~ In p (map product (recommend self needs budget products)).
Proof.
  intros _ Hover Hout.
  apply List.in_map_iff in Hout as (r & Hp & Hr).
  apply recommend_In, evaluate_products_In in Hr as [_ He].
  rewrite Hp in He. apply within_tolerance_of_check in He.
  eapply Qlt_not_le; eauto.
Qed.

Lemma over_budget_never_recommended_witness :
  ~ In product_B (map product
                    (recommend default_engine sample_needs 120
                       [product_A; product_B])).
Proof.
  apply (over_budget_never_recommended default_engine sample_needs 120
           [product_A; product_B] product_B).
  - right. left. reflexivity.
  - vm_compute. reflexivity.
Defined.

(** ** The stateful methods against the pure ones *)

Ltac run_call :=
  unfold mbind, mret, Stateful.call_bind, Stateful.call_ret,
    Stateful.self_config.

Lemma stateful_satisfaction_scores needs (sp : gmap string Q) w :
  Stateful._calculate_satisfaction_scores needs sp w =
  (_calculate_satisfaction_scores needs sp, w).
Proof.
  induction needs as [|[k v] rest IH]; cbn [Stateful._calculate_satisfaction_scores
    _calculate_satisfaction_scores]; [reflexivity|].
  destruct (sp !! k); [|exact IH]. run_call. rewrite IH. reflexivity.
Qed.

Lemma stateful_waste_penalties needs (sp : gmap string Q) w :
  Stateful._calculate_waste_penalties needs sp w =
  (_calculate_waste_penalties needs sp, w).
Proof.
  induction needs as [|[k v] rest IH]; cbn [Stateful._calculate_waste_penalties
    _calculate_waste_penalties]; [reflexivity|].
  destruct (sp !! k); [|exact IH].
  destruct (Py.gt v 0); [|exact IH].
  destruct (Py.gt _ v); [|exact IH]. run_call. rewrite IH. reflexivity.
Qed.

Lemma stateful_usage_score needs (sp : gmap string Q) w :
  Stateful.calculate_usage_score needs sp w =
  (calculate_usage_score (Stateful.the_engine w) needs sp, w).
Proof.
  unfold Stateful.calculate_usage_score. run_call.
  rewrite stateful_satisfaction_scores, stateful_waste_penalties. reflexivity.
Qed.

Lemma stateful_price_score budget pr w :
  Stateful.calculate_price_score budget pr w =
  (calculate_price_score budget pr, w).
Proof.
  unfold Stateful.calculate_price_score, calculate_price_score.
  destruct (Py.le pr 0); reflexivity.
Qed.

Lemma stateful_check_basic_requirements needs (sp : gmap string Q) budget pr w :
  Stateful.check_basic_requirements needs sp budget pr w =
  (check_basic_requirements (Stateful.the_engine w) needs sp budget pr, w).
Proof.
  unfold Stateful.check_basic_requirements, check_basic_requirements. run_call.
  destruct (Py.gt pr _); reflexivity.
Qed.

Lemma stateful_need_match_reasons needs (sp : gmap string Q) w :
  Stateful._analyze_need_match_reasons needs sp w =
  (_analyze_need_match_reasons (Stateful.the_engine w) needs sp, w).
Proof.
  induction needs as [|[k v] rest IH]; cbn [Stateful._analyze_need_match_reasons
    _analyze_need_match_reasons]; [reflexivity|].
  destruct (sp !! k) as [pv|]; [|exact IH].
  destruct (Py.ge pv v); [|exact IH]. run_call.
  destruct (Py.le pv _); rewrite IH; reflexivity.
Qed.

Lemma stateful_price_reasons budget pr w :
  Stateful._analyze_price_reasons budget pr w =
  (_analyze_price_reasons (Stateful.the_engine w) budget pr, w).
Proof.
  unfold Stateful._analyze_price_reasons, _analyze_price_reasons.
  destruct (Py.le pr budget).
  - destruct (Py.ge _ 20); reflexivity.
  - run_call. destruct (Py.le pr _); reflexivity.
Qed.

Lemma stateful_match_reason needs budget p w :
  Stateful.generate_match_reason needs budget p w =
  (generate_match_reason (Stateful.the_engine w) needs budget p, w).
Proof.
  unfold Stateful.generate_match_reason, generate_match_reason. run_call.
  rewrite stateful_need_match_reasons, stateful_price_reasons. reflexivity.
Qed.

Lemma stateful_evaluate_single_product needs budget p w :
  Stateful._evaluate_single_product needs budget p w =
  (_evaluate_single_product (Stateful.the_engine w) needs budget p, w).
Proof.
  unfold Stateful._evaluate_single_product, _evaluate_single_product. run_call.
  rewrite stateful_check_basic_requirements.
  destruct (check_basic_requirements _ _ _ _ _); cbn [negb]; [|reflexivity].
  rewrite stateful_usage_score, stateful_price_score.
  unfold Stateful._calculate_weighted_score. run_call.
  rewrite stateful_match_reason. reflexivity.
Qed.

Lemma stateful_evaluate_products needs budget products acc w :
  Stateful.evaluate_products needs budget products acc w =
  (acc ++ evaluate_products (Stateful.the_engine w) needs budget products, w).
Proof.
  revert acc. induction products as [|p rest IH]; intros acc;
    cbn [Stateful.evaluate_products evaluate_products].
  - rewrite app_nil_r. reflexivity.
  - run_call. rewrite stateful_evaluate_single_product.
    destruct (_evaluate_single_product _ _ _ p) as [r|]; rewrite IH;
      [rewrite <- app_assoc|]; reflexivity.
Qed.

Lemma stateful_recommend needs budget products w :
  Stateful.recommend needs budget products w =
  (recommend (Stateful.the_engine w) needs budget products, w).
Proof.
  unfold Stateful.recommend. run_call. rewrite stateful_evaluate_products.
  reflexivity.
Qed.

(** C7: a call of [recommend] leaves the engine, the needs and the product
    list as it found them, so a second call with the same budget on what the
    first one left returns the same list; the list is the one the pure
    [recommend] computes from the configuration, the needs and the
    products. *)
Theorem recommend_idempotent (w : Stateful.World) (budget : Q) :
  let first := Stateful.call_recommend budget w in
  let second := Stateful.call_recommend budget (snd first) in
  snd first = w /\
  fst second = fst first /\
  fst first =
    recommend (Stateful.the_engine w) (Stateful.the_needs w) budget
      (Stateful.the_products w).
Proof.
  assert (H : forall w0, Stateful.call_recommend budget w0 =
            (recommend (Stateful.the_engine w0) (Stateful.the_needs w0) budget
               (Stateful.the_products w0), w0)).
  { intros w0. unfold Stateful.call_recommend, Stateful.arg_needs,
      Stateful.arg_products. run_call. apply stateful_recommend. }
  intros first second. subst second. subst first.
  rewrite (H w). cbn [fst snd]. rewrite (H w). cbn [fst snd]. auto.
Qed.

(** A configuration update between two calls is seen by the second one. *)
Example config_update_is_observed :
  let limit_to_one :=
    {| Stateful.request_score_weights := None;
       Stateful.request_thresholds := None;
       Stateful.request_max_recommendations := Some 1%Z |} in
  let updated := snd (Stateful._handle_config_update limit_to_one sample_world) in
  length (fst (Stateful.call_recommend 200 sample_world)) = 2%nat /\
  length (fst (Stateful.call_recommend 200 updated)) = 1%nat /\
  Stateful.the_needs updated = Stateful.the_needs sample_world /\
  Stateful.the_products updated = Stateful.the_products sample_world.
Proof. repeat split; vm_compute; reflexivity. Qed.

(** ** No-match diagnosis *)

Lemma min_of_spec l m : Py.min_of l = Some m -> is_min_of m l.
Proof.
  destruct l as [|x rest]; [discriminate|]. cbn [Py.min_of].
  intros H. inversion H as [Hm]. clear H Hm. revert x.
  induction rest as [|y rest IH]; intros x; cbn [fold_left].
  - split; [left; reflexivity|]. intros z [<-|[]]. apply Qle_refl.
  - destruct (IH (if Py.lt y x then y else x)) as [Hin Hle].
    destruct (Py.lt y x) eqn:E.
    + apply lt_true in E. split.
      * destruct Hin as [Hin|Hin]; [right; left; exact Hin|right; right; exact Hin].
      * intros z [<-|Hz]; [|apply Hle, Hz].
        eapply Qle_trans; [apply Hle; left; reflexivity|].
        apply Qlt_le_weak, E.
    + apply lt_false in E. split.
      * destruct Hin as [Hin|Hin]; [left; exact Hin|right; right; exact Hin].
      * intros z [<-|[<-|Hz]].
        -- apply Hle. left. reflexivity.
        -- eapply Qle_trans; [apply Hle; left; reflexivity|exact E].
        -- apply Hle. right. exact Hz.
Qed.

Lemma max_of_spec l m : Py.max_of l = Some m -> is_max_of m l.
Proof.
  destruct l as [|x rest]; [discriminate|]. cbn [Py.max_of].
  intros H. inversion H as [Hm]. clear H Hm. revert x.
  induction rest as [|y rest IH]; intros x; cbn [fold_left].
  - split; [left; reflexivity|]. intros z [<-|[]]. apply Qle_refl.
  - destruct (IH (if Py.gt y x then y else x)) as [Hin Hle].
    unfold Py.gt in *. destruct (Py.lt x y) eqn:E.
    + apply lt_true in E. split.
      * destruct Hin as [Hin|Hin]; [right; left; exact Hin|right; right; exact Hin].
      * intros z [<-|Hz]; [|apply Hle, Hz].
        eapply Qle_trans; [apply Qlt_le_weak, E|].
        apply Hle. left. reflexivity.
    + apply lt_false in E. split.
      * destruct Hin as [Hin|Hin]; [left; exact Hin|right; right; exact Hin].
      * intros z [<-|[<-|Hz]].
        -- apply Hle. left. reflexivity.
        -- eapply Qle_trans; [exact E|apply Hle; left; reflexivity].
        -- apply Hle. right. exact Hz.
Qed.

Lemma dict_append_nonempty key prod (d : list (string * list Product)) :
  Forall (fun e => snd e <> []) d ->
  Forall (fun e => snd e <> []) (dict_append key prod d).
Proof.
  induction d as [|[k ps] rest IH]; cbn [dict_append]; intros H.
  - constructor; [discriminate|constructor].
  - inversion H as [|? ? Hps Hrest]; subst.
    destruct (String.eqb k key).
    + constructor; [|exact Hrest]. simpl. destruct ps; discriminate.
    + constructor; [exact Hps|apply IH, Hrest].
Qed.

Lemma record_insufficient_nonempty (sp : gmap string Q) needs prod analysis :
  Forall (fun e => snd e <> []) (insufficient_specs analysis) ->
  Forall (fun e => snd e <> [])
    (insufficient_specs (record_insufficient sp needs prod analysis)).
Proof.
  revert analysis. induction needs as [|[k v] rest IH]; intros analysis H;
    cbn [record_insufficient]; [exact H|].
  destruct (Py.lt _ v); apply IH; [|exact H].
  simpl. apply dict_append_nonempty, H.
Qed.

Lemma analyze_product_mismatch_nonempty self products needs budget analysis :
  Forall (fun e => snd e <> []) (insufficient_specs analysis) ->
  Forall (fun e => snd e <> [])
    (insufficient_specs
       (_analyze_product_mismatch self products needs budget analysis)).
Proof.
  revert analysis. induction products as [|p rest IH]; intros analysis H;
    cbn [_analyze_product_mismatch]; [exact H|].
  apply IH. unfold _check_insufficient_specs.
  destruct (Py.le _ _).
  - apply record_insufficient_nonempty.
    destruct (_is_over_budget_but_specs_satisfy _ _ _ _ _); exact H.
  - destruct (_is_over_budget_but_specs_satisfy _ _ _ _ _); exact H.
Qed.

Lemma spec_suggestions_total (entries : list (string * list Product)) :
  Forall (fun e => snd e <> []) entries ->
  exists ts, spec_suggestions entries = Some ts /\
    forall k ps, In (k, ps) entries ->
      exists m,
        is_max_of m (map (fun prod => default 0 (specs_of prod !! k)) ps) /\
        In [Lit "降低"; Lit (_get_need_display_name k); Lit "需求至"; Num m;
            Lit (_get_need_unit k)] ts.
Proof.
  induction entries as [|[k0 ps0] rest IH]; intros H.
  - exists []. split; [reflexivity|]. intros k ps [].
  - inversion H as [|? ? Hps Hrest]; subst. simpl in Hps.
    destruct (IH Hrest) as (ts & Hts & Hall).
    destruct (Py.max_of
                (map (fun prod => default 0 (specs_of prod !! k0)) ps0))
      as [m0|] eqn:Hmax.
    2: { destruct ps0; [congruence|discriminate]. }
    eexists. split.
    + cbn [spec_suggestions]. unfold specs_of in Hmax.
      change (fun prod : Product =>
                default 0 (default ∅ (specs prod) !! k0))
        with (fun prod : Product =>
                default 0 (match specs prod with Some sp => sp | None => ∅ end !! k0)).
      rewrite Hmax. simpl. rewrite Hts. simpl. reflexivity.
    + intros k ps [Heq|Hin].
      * inversion Heq; subst. exists m0. split; [apply max_of_spec, Hmax|].
        left. reflexivity.
      * destruct (Hall k ps Hin) as (m & Hm & Hin'). exists m.
        split; [exact Hm|right; exact Hin'].
Qed.

Lemma budget_price_map (l : list Product) :
  map (fun prod =>
         default (default 0 (price prod)) (default ∅ (specs prod) !! "price")) l =
  map price_fallback l.
Proof. apply map_ext. intros prod. apply price_resolution. Qed.

(** C8: [analyze_no_match_reason] returns a diagnosis [d] (it never raises)
    such that, when [over_budget_products] is not empty, [suggestions] holds
    the advice to raise the budget to a least price among those products,
    and, for every attribute recorded in [insufficient_specs], [suggestions]
    holds the advice to lower that need to a greatest value of that attribute
    among the products recorded for it. *)
Theorem suggestions_cover_diagnosis
    (self : RecommendationEngine) (needs : Needs) (budget : Q)
    (products : list Product) :
  exists d, analyze_no_match_reason self needs budget products = Some d /\
    (over_budget_products d <> [] ->
     exists m,
       is_min_of m (map price_fallback (over_budget_products d)) /\
       In [Lit "适当提高预算至"; Num m; Lit "元"] (suggestions d)) /\
    (forall k ps, In (k, ps) (insufficient_specs d) ->
     exists m,
       is_max_of m (map (fun prod => default 0 (specs_of prod !! k)) ps) /\
       In [Lit "降低"; Lit (_get_need_display_name k); Lit "需求至"; Num m;
           Lit (_get_need_unit k)] (suggestions d)).
Proof.
  unfold analyze_no_match_reason.
  set (a := _analyze_product_mismatch self products needs budget _).
  assert (Hne : Forall (fun e => snd e <> []) (insufficient_specs a)).
  { apply analyze_product_mismatch_nonempty. constructor. }
  clearbody a.
  destruct (spec_suggestions_total _ Hne) as (ts & Hts & Hall).
  unfold _generate_improvement_suggestions. rewrite Hts.
  destruct (over_budget_products a) as [|p0 l0] eqn:Hob.
  - eexists. split; [reflexivity|]. cbn. split; [congruence|].
    intros k ps Hin. destruct (Hall k ps Hin) as (m & Hm & Hin').
    exists m. split; [exact Hm|].
    apply in_or_app. right. exact Hin'.
  - rewrite budget_price_map.
    destruct (Py.min_of (map price_fallback (p0 :: l0))) as [m0|] eqn:Hmin;
      [|discriminate].
    eexists. split; [reflexivity|]. cbn. split.
    + intros _. exists m0. split; [apply min_of_spec, Hmin|].
      apply in_or_app. right. left. reflexivity.
    + intros k ps Hin. destruct (Hall k ps Hin) as (m & Hm & Hin').
      exists m. split; [exact Hm|].
      apply in_or_app. right. right. exact Hin'.
Qed.

(** C9: on an empty product list [analyze_no_match_reason] does not raise
    and returns the diagnosis whose three fields are empty. *)
Theorem analyze_no_match_reason_empty
    (self : RecommendationEngine) (needs : Needs) (budget : Q) :
  analyze_no_match_reason self needs budget [] =
  Some {| over_budget_products := [];
          insufficient_specs := [];
          suggestions := [] |}.
Proof. reflexivity. Qed.

Lemma check_unpriced self needs (sp : gmap string Q) budget :
  0 <= budget ->
  0 <= budget_tolerance (thresholds (config self)) ->
  check_basic_requirements self needs sp budget 0 = check_needs needs sp.
Proof.
  intros Hb Ht. unfold check_basic_requirements, Py.gt.
  assert (E : Py.lt (budget * budget_tolerance (thresholds (config self))) 0
              = false).
  { apply lt_false. apply Qmult_le_0_compat; assumption. }
  rewrite E. reflexivity.
Qed.

(** ** Worked scenarios *)

(** Needs met exactly, price 100 under a budget of 150: usage score 1.00,
    price score 1.50, and a reason that ends with the saving of 50. *)
Example scenario_eligible :
  map (fun r => (usage_score r, price_score r, match_reason r))
    (recommend default_engine [("data", 30); ("calls", 500)] 150 [product_A]) =
  [(100 # 100, 150 # 100,
    [Lit "流量"; Num 30; Lit "GB"; Lit "完全满足您"; Num 30; Lit "GB";
     Lit "的需求"; Lit "；";
     Lit "通话"; Num 500; Lit "分钟"; Lit "完全满足您"; Num 500; Lit "分钟";
     Lit "的需求"; Lit "；";
     Lit "价格"; Num 100; Lit "元，比预算节省"; Num (150 - 100); Lit "元"])].
Proof. vm_compute. reflexivity. Qed.

(** A product that meets the needs at three times the budget: nothing is
    recommended and the diagnosis lists it as over budget. *)
Example scenario_over_budget :
  recommend default_engine [("data", 30)] 50 [product_B] = [] /\
  analyze_no_match_reason default_engine [("data", 30)] 50 [product_B] =
  Some {| over_budget_products := [product_B];
          insufficient_specs := [];
          suggestions := [[Lit "适当提高预算至"; Num 150; Lit "元"]] |}.
Proof. split; vm_compute; reflexivity. Qed.

(** Affordable products that fall short on data: both are recorded under
    ["data"] and the advice names the larger of the two allowances. *)
Example scenario_insufficient :
  recommend default_engine [("data", 100)] 500 [product_A; product_B] = [] /\
  analyze_no_match_reason default_engine [("data", 100)] 500
    [product_A; product_B] =
  Some {| over_budget_products := [];
          insufficient_specs := [("data", [product_A; product_B])];
          suggestions :=
            [[Lit "降低"; Lit "流量"; Lit "需求至"; Num 50; Lit "GB"]] |}.
Proof. split; vm_compute; reflexivity. Qed.

(** A negative bound of a slice drops elements from the end. *)
Example slice_to_negative : Py.slice_to [1; 2; 3]%Z (-1) = [1; 2]%Z.
Proof. reflexivity. Qed.

(** * Further properties of the engine *)

(** ** Averages *)

Lemma len_cons {A} (x : A) (l : list A) : Py.len (x :: l) == 1 + Py.len l.
Proof.
  unfold Py.len. cbn [length]. rewrite Nat2Z.inj_succ.
  unfold Z.succ. rewrite inject_Z_plus. ring.
Qed.

Lemma len_nonneg {A} (l : list A) : 0 <= Py.len l.
Proof.
  unfold Py.len. change 0 with (inject_Z 0). rewrite <- Zle_Qle. lia.
Qed.

Lemma len_pos {A} (x : A) (l : list A) : 0 < Py.len (x :: l).
Proof. rewrite len_cons. pose proof (len_nonneg l). lra. Qed.

Lemma fold_sum_lower (a : Q) (l : list Q) (acc : Q) :
  List.Forall (fun s => a <= s) l ->
  acc + a * Py.len l <= fold_left Qplus l acc.
Proof.
  revert acc. induction l as [|x l IH]; intros acc H; cbn [fold_left].
  - change (Py.len (@nil Q)) with 0. assert (E : acc + a * 0 == acc) by ring.
    rewrite E. apply Qle_refl.
  - inversion H as [|? ? Hx Hl]; subst. specialize (IH (acc + x) Hl).
    rewrite len_cons.
    assert (E : a * (1 + Py.len l) == a + a * Py.len l) by ring.
    rewrite E. clear E.
    set (t := a * Py.len l) in *. lra.
Qed.

Lemma fold_sum_upper (b : Q) (l : list Q) (acc : Q) :
  List.Forall (fun s => s <= b) l ->
  fold_left Qplus l acc <= acc + b * Py.len l.
Proof.
  revert acc. induction l as [|x l IH]; intros acc H; cbn [fold_left].
  - change (Py.len (@nil Q)) with 0. assert (E : acc + b * 0 == acc) by ring.
    rewrite E. apply Qle_refl.
  - inversion H as [|? ? Hx Hl]; subst. specialize (IH (acc + x) Hl).
    rewrite len_cons.
    assert (E : b * (1 + Py.len l) == b + b * Py.len l) by ring.
    rewrite E. clear E.
    set (t := b * Py.len l) in *. lra.
Qed.

Lemma average_lower (a : Q) (l : list Q) :
  l <> [] -> List.Forall (fun s => a <= s) l -> a <= Py.sum l / Py.len l.
Proof.
  intros Hne H. destruct l as [|x l]; [congruence|].
  apply Qle_shift_div_l; [apply len_pos|].
  pose proof (fold_sum_lower a (x :: l) 0 H) as Hs. unfold Py.sum. lra.
Qed.

Lemma average_upper (b : Q) (l : list Q) :
  l <> [] -> List.Forall (fun s => s <= b) l -> Py.sum l / Py.len l <= b.
Proof.
  intros Hne H. destruct l as [|x l]; [congruence|].
  apply Qle_shift_div_r; [apply len_pos|].
  pose proof (fold_sum_upper b (x :: l) 0 H) as Hs. unfold Py.sum. lra.
Qed.

(** ** Range of the scores *)

Lemma min_two_upper a : Py.min a 2 <= 2.
Proof.
  unfold Py.min. destruct (Py.lt 2 a) eqn:E; [apply Qle_refl|].
  apply lt_false in E. exact E.
Qed.

Lemma min_two_lower a : 1 <= a -> 1 <= Py.min a 2.
Proof.
  intros H. unfold Py.min. destruct (Py.lt 2 a); [discriminate|exact H].
Qed.

Lemma satisfaction_scores_upper needs (sp : gmap string Q) :
  List.Forall (fun s => s <= 2) (_calculate_satisfaction_scores needs sp).
Proof.
  induction needs as [|[k v] rest IH]; simpl; [constructor|].
  destruct (sp !! k) as [pv|]; [|exact IH].
  constructor; [|exact IH].
  destruct (Py.gt v 0); [apply min_two_upper|discriminate].
Qed.

Lemma waste_penalties_nonneg needs (sp : gmap string Q) :
  List.Forall (fun s => 0 <= s) (_calculate_waste_penalties needs sp).
Proof.
  induction needs as [|[k v] rest IH]; simpl; [constructor|].
  destruct (sp !! k) as [pv|]; [|exact IH].
  unfold Py.gt. destruct (Py.lt 0 v) eqn:Ev; [|exact IH].
  destruct (Py.lt v pv) eqn:Ep; [|exact IH].
  apply lt_true in Ev, Ep. constructor; [|exact IH].
  apply Qle_shift_div_l; [exact Ev|]. lra.
Qed.

(** X1.  The docstring of [calculate_usage_score] gives the range 0 to 2.0:
    with a waste penalty coefficient that is not negative the usage score is
    at most 2. *)
Theorem usage_score_at_most_two
    (self : RecommendationEngine) (needs : Needs) (sp : gmap string Q) :
  0 <= waste_penalty (thresholds (config self)) ->
  calculate_usage_score self needs sp <= 2.
Proof.
  intros Hw. unfold calculate_usage_score, _compute_final_usage_score.
  pose proof (satisfaction_scores_upper needs sp) as Hs.
  pose proof (waste_penalties_nonneg needs sp) as Hp.
  set (scores := _calculate_satisfaction_scores needs sp) in *.
  set (penalties := _calculate_waste_penalties needs sp) in *.
  assert (Havg : match scores with
                 | [] => 0
                 | _ => Py.sum scores / Py.len scores
                 end <= 2).
  { destruct scores as [|s0 scores']; [discriminate|].
    apply average_upper; [discriminate|exact Hs]. }
  assert (Hpen : 0 <= match penalties with
                      | [] => 0
                      | _ => Py.sum penalties / Py.len penalties
                      end).
  { destruct penalties as [|p0 penalties']; [discriminate|].
    apply average_lower; [discriminate|exact Hp]. }
  set (avg_score := match scores with [] => 0 | _ => _ end) in *.
  set (avg_penalty := match penalties with [] => 0 | _ => _ end) in *.
  assert (Hprod : 0 <= avg_penalty * waste_penalty (thresholds (config self)))
    by (apply Qmult_le_0_compat; assumption).
  unfold Py.max, Py.gt. destruct (Py.lt _ 0); [discriminate|].
  set (t := avg_penalty * _) in *. lra.
Qed.

Lemma usage_score_at_most_two_witness :
  calculate_usage_score default_engine sample_needs (specs_of product_B) <= 2.
Proof.
  apply (usage_score_at_most_two default_engine sample_needs
           (specs_of product_B)).
  discriminate.
Defined.

(** X2.  When the needs loop of the eligibility check accepts a spec, every
    satisfaction score computed for it lies between 1 and 2. *)
Theorem eligible_satisfaction_range (needs : Needs) (sp : gmap string Q) :
  check_needs needs sp = true ->
  List.Forall (fun s => 1 <= s /\ s <= 2)
    (_calculate_satisfaction_scores needs sp).
Proof.
  induction needs as [|[k v] rest IH]; simpl; [constructor|].
  destruct (sp !! k) as [pv|]; [|exact IH].
  destruct (Py.lt pv v) eqn:Hlt; [discriminate|].
  intros Hrest. apply lt_false in Hlt. constructor; [|apply IH, Hrest].
  unfold Py.gt. destruct (Py.lt 0 v) eqn:Ev.
  - apply lt_true in Ev. split; [|apply min_two_upper].
    apply min_two_lower. apply Qle_shift_div_l; [exact Ev|]. lra.
  - split; discriminate.
Qed.

Lemma eligible_satisfaction_range_witness :
  List.Forall (fun s => 1 <= s /\ s <= 2)
    (_calculate_satisfaction_scores sample_needs (specs_of product_A)).
Proof.
  apply (eligible_satisfaction_range sample_needs (specs_of product_A)).
  vm_compute. reflexivity.
Defined.

Lemma exact_scores needs (sp : gmap string Q) :
  (forall k v, In (k, v) needs -> exists pv, sp !! k = Some pv /\ pv == v) ->
  length (_calculate_satisfaction_scores needs sp) = length needs /\
  List.Forall (fun s => s == 1) (_calculate_satisfaction_scores needs sp) /\
  _calculate_waste_penalties needs sp = [].
Proof.
  induction needs as [|[k v] rest IH]; intros H; simpl.
  - repeat split; constructor.
  - destruct (H k v) as (pv & Hk & Hpv); [left; reflexivity|].
    rewrite Hk. destruct IH as (Hlen & Hall & Hpen).
    { intros k' v' Hin. apply H. right. exact Hin. }
    assert (Hnot : Py.gt pv v = false).
    { unfold Py.gt. apply lt_false. rewrite Hpv. apply Qle_refl. }
    rewrite Hnot. split; [simpl; rewrite Hlen; reflexivity|]. split.
    + constructor; [|exact Hall].
      unfold Py.gt. destruct (Py.lt 0 v) eqn:Ev; [|reflexivity].
      apply lt_true in Ev.
      assert (Hone : pv / v == 1) by (rewrite Hpv; field; lra).
      unfold Py.min. destruct (Py.lt 2 (pv / v)) eqn:E2; [|exact Hone].
      apply lt_true in E2. rewrite Hone in E2. discriminate.
    + destruct (Py.gt v 0); exact Hpen.
Qed.

(** X3.  A spec that offers every requested attribute in exactly the needed
    quantity has usage score 1, whatever the waste penalty coefficient. *)
Theorem usage_score_exact_match
    (self : RecommendationEngine) (needs : Needs) (sp : gmap string Q) :
  needs <> [] ->
  (forall k v, In (k, v) needs -> exists pv, sp !! k = Some pv /\ pv == v) ->
  calculate_usage_score self needs sp == 1.
Proof.
  intros Hne H. destruct (exact_scores needs sp H) as (Hlen & Hall & Hpen).
  unfold calculate_usage_score, _compute_final_usage_score. rewrite Hpen.
  set (scores := _calculate_satisfaction_scores needs sp) in *.
  assert (Hsne : scores <> []).
  { intros E. rewrite E in Hlen. destruct needs; [congruence|discriminate]. }
  assert (Havg : Py.sum scores / Py.len scores == 1).
  { apply Qle_antisym.
    - apply average_upper; [exact Hsne|].
      eapply List.Forall_impl; [|exact Hall]. intros s Hs. rewrite Hs. apply Qle_refl.
    - apply average_lower; [exact Hsne|].
      eapply List.Forall_impl; [|exact Hall]. intros s Hs. rewrite Hs. apply Qle_refl. }
  destruct scores as [|s0 scores']; [congruence|].
  set (avg := Py.sum (s0 :: scores') / Py.len (s0 :: scores')) in *.
  unfold Py.max, Py.gt.
  destruct (Py.lt (avg - 0 * waste_penalty (thresholds (config self))) 0) eqn:E.
  - apply lt_true in E. rewrite Havg in E. exfalso.
    set (w := waste_penalty _) in *. lra.
  - rewrite Havg. ring.
Qed.

Lemma usage_score_exact_match_witness :
  calculate_usage_score default_engine [("data", 30); ("calls", 500)]
    (specs_of product_A) == 1.
Proof.
  apply (usage_score_exact_match default_engine [("data", 30); ("calls", 500)]
           (specs_of product_A)).
  - discriminate.
  - intros k v [Heq|[Heq|[]]]; inversion Heq; subst;
      eexists; (split; [vm_compute; reflexivity|reflexivity]).
Defined.

Lemma unmatched_scores needs (sp : gmap string Q) :
  (forall k v, In (k, v) needs -> sp !! k = None) ->
  _calculate_satisfaction_scores needs sp = [] /\
  _calculate_waste_penalties needs sp = [] /\
  check_needs needs sp = true.
Proof.
  induction needs as [|[k v] rest IH]; intros H; simpl; [auto|].
  rewrite (H k v) by (left; reflexivity).
  apply IH. intros k' v' Hin. apply (H k' v'). right. exact Hin.
Qed.

(** X4.  A product whose specs hold none of the requested attributes is not
    rejected for it: it is eligible exactly when its price is within the
    tolerated budget, and its usage score is 0. *)
Theorem unmatched_product_scores_zero
    (self : RecommendationEngine) (needs : Needs) (budget : Q) (p : Product) :
  (forall k v, In (k, v) needs -> specs_of p !! k = None) ->
  eligible self needs budget p = within_tolerance self budget p /\
  calculate_usage_score self needs (specs_of p) == 0.
Proof.
  intros H. destruct (unmatched_scores needs (specs_of p) H) as (Hs & Hp & Hc).
  split.
  - unfold eligible, check_basic_requirements, within_tolerance, Py.gt, Py.lt,
      Py.le.
    rewrite Hc.
    destruct (Qle_bool _ _); reflexivity.
  - unfold calculate_usage_score, _compute_final_usage_score.
    rewrite Hs, Hp. unfold Py.max.
    destruct (Py.gt 0 _); [reflexivity|ring].
Qed.

Lemma unmatched_product_scores_zero_witness :
  eligible default_engine [("sms", 100)] 150 product_A = true /\
  calculate_usage_score default_engine [("sms", 100)] (specs_of product_A) == 0.
Proof.
  destruct (unmatched_product_scores_zero default_engine [("sms", 100)] 150
              product_A) as [He Hu].
  - intros k v [Heq|[]]. inversion Heq; subst. vm_compute. reflexivity.
  - split; [rewrite He; vm_compute; reflexivity|exact Hu].
Defined.

(** ** The price score *)

(** X5.  For a budget that is not negative, of two positive prices the lower
    one gets the price score that is at least as high. *)
Theorem price_score_antitone (budget p1 p2 : Q) :
  0 <= budget -> 0 < p1 -> p1 <= p2 ->
  calculate_price_score budget p2 <= calculate_price_score budget p1.
Proof.
  intros Hb H1 H12. assert (H2 : 0 < p2) by lra.
  unfold calculate_price_score.
  apply le_false in H1 as E1. apply le_false in H2 as E2. rewrite E1, E2.
  apply Qle_shift_div_r; [exact H2|].
  assert (Hr : 0 <= budget / p1).
  { apply Qle_shift_div_l; [exact H1|]. lra. }
  assert (Hb1 : budget == budget / p1 * p1) by (field; lra).
  assert (Hm : p1 * (budget / p1) <= p2 * (budget / p1))
    by (apply Qmult_le_compat_r; assumption).
  rewrite (Qmult_comm p1), (Qmult_comm p2) in Hm.
  rewrite <- Hb1 in Hm. exact Hm.
Qed.

Lemma price_score_antitone_witness :
  calculate_price_score 120 150 <= calculate_price_score 120 100.
Proof.
  apply (price_score_antitone 120 100 150).
  - discriminate.
  - reflexivity.
  - discriminate.
Defined.

(** X6.  For a positive price, the price score reaches 1 exactly when the
    price is within the budget. *)
Theorem price_score_one_iff_within_budget (budget pr : Q) :
  0 < pr ->
  (1 <= calculate_price_score budget pr <-> pr <= budget).
Proof.
  intros Hp. unfold calculate_price_score.
  apply le_false in Hp as E. rewrite E. split; intros H.
  - assert (Hb : budget == budget / pr * pr) by (field; lra).
    rewrite Hb. 
    assert (Hm : 1 * pr <= budget / pr * pr)
      by (apply Qmult_le_compat_r; [exact H|lra]).
    lra.
  - apply Qle_shift_div_l; [exact Hp|]. lra.
Qed.

Lemma price_score_one_iff_within_budget_witness :
  1 <= calculate_price_score 150 100.
Proof.
  apply (price_score_one_iff_within_budget 150 100).
  - reflexivity.
  - discriminate.
Defined.

(** ** Reasons *)

Lemma price_reasons_within self budget pr :
  pr <= budget * budget_tolerance (thresholds (config self)) ->
  exists c rest,
    _analyze_price_reasons self budget pr = [Lit "价格" :: Num pr :: c :: rest].
Proof.
  intros H. apply le_true in H. unfold _analyze_price_reasons.
  destruct (Py.le pr budget).
  - destruct (Py.ge _ 20); eexists; eexists; reflexivity.
  - rewrite H. eexists; eexists; reflexivity.
Qed.

Lemma join_snoc_nonempty sep (parts : list text) (c : text) :
  c <> [] -> join sep (parts ++ [c]) <> [].
Proof.
  intros Hc. induction parts as [|t parts IH]; [exact Hc|].
  cbn [app join].
  destruct (parts ++ [c]) as [|t' l] eqn:E.
  - destruct parts; discriminate.
  - destruct t; discriminate.
Qed.

Lemma evaluate_products_origin self needs budget products r :
  In r (evaluate_products self needs budget products) ->
  exists p, In p products /\
    _evaluate_single_product self needs budget p = Some r.
Proof.
  induction products as [|p rest IH]; simpl; [tauto|].
  destruct (_evaluate_single_product self needs budget p) as [r0|] eqn:E.
  - intros [<-|Hin].
    + exists p. auto.
    + destruct (IH Hin) as (p' & Hp' & He). exists p'. auto.
  - intros Hin. destruct (IH Hin) as (p' & Hp' & He). exists p'. auto.
Qed.

Lemma recommended_is_evaluation self needs budget products r :
  In r (recommend self needs budget products) ->
  _evaluate_single_product self needs budget (product r) = Some r.
Proof.
  intros Hin. apply recommend_In, evaluate_products_origin in Hin.
  destruct Hin as (p & _ & He).
  destruct (evaluate_single_Some _ _ _ _ _ He) as [Hp _].
  rewrite Hp. exact He.
Qed.

(** X7.  The reason of every recommendation is not empty and ends with
    exactly one price clause, which opens with the price of the product. *)
Theorem recommended_reason_has_price_clause
    (self : RecommendationEngine) (needs : Needs) (budget : Q)
    (products : list Product) (r : Recommendation) :
  In r (recommend self needs budget products) ->
  match_reason r <> [] /\
  exists c rest,
    _analyze_price_reasons self budget (price_fallback (product r)) =
      [Lit "价格" :: Num (price_fallback (product r)) :: c :: rest] /\
    match_reason r =
      join "；"
        (_analyze_need_match_reasons self needs (specs_of (product r))
         ++ [Lit "价格" :: Num (price_fallback (product r)) :: c :: rest]).
Proof.
  intros Hin.
  pose proof (recommended_is_evaluation _ _ _ _ _ Hin) as He.
  rewrite evaluate_single_eligible in He.
  destruct (eligible self needs budget (product r)) eqn:Hel; [|discriminate].
  apply within_tolerance_of_check in Hel.
  destruct (price_reasons_within self budget _ Hel) as (c & rest & Hpr).
  assert (Hreason : match_reason r =
            join "；"
              (_analyze_need_match_reasons self needs (specs_of (product r))
               ++ [Lit "价格" :: Num (price_fallback (product r)) :: c :: rest])).
  { inversion He as [Hr]. rewrite <- Hr at 1. cbn [match_reason].
    unfold generate_match_reason. rewrite price_resolution, Hpr. reflexivity. }
  split.
  - rewrite Hreason. apply join_snoc_nonempty. discriminate.
  - exists c, rest. split; [exact Hpr|exact Hreason].
Qed.

Lemma recommended_reason_has_price_clause_witness :
  match_reason sample_recommendation <> [].
Proof.
  apply (recommended_reason_has_price_clause default_engine sample_needs 120
           [product_A] sample_recommendation).
  vm_compute. left. reflexivity.
Defined.

(** X8.  For a spec that the needs loop of the eligibility check accepts,
    the reason holds one clause for every requested attribute that the spec
    has: as many clauses as there are satisfaction scores. *)
Theorem need_clauses_for_matched_attributes
    (self : RecommendationEngine) (needs : Needs) (sp : gmap string Q) :
  check_needs needs sp = true ->
  length (_analyze_need_match_reasons self needs sp) =
  length (_calculate_satisfaction_scores needs sp) /\
  length (_calculate_satisfaction_scores needs sp) =
  length (List.filter (fun kv => bool_decide (is_Some (sp !! kv.1))) needs).
Proof.
  induction needs as [|[k v] rest IH]; simpl; [auto|].
  destruct (sp !! k) as [pv|] eqn:Hk.
  - destruct (Py.lt pv v) eqn:Hlt; [discriminate|].
    intros Hrest. destruct (IH Hrest) as [H1 H2].
    assert (Hge : Py.ge pv v = true).
    { unfold Py.ge. apply le_true. apply lt_false in Hlt. exact Hlt. }
    rewrite Hge. rewrite bool_decide_true by eauto.
    destruct (Py.le pv _); simpl; rewrite H1, H2; auto.
  - intros Hrest. rewrite bool_decide_false by (intros [? ?]; discriminate).
    apply IH, Hrest.
Qed.

Lemma need_clauses_for_matched_attributes_witness :
  length (_analyze_need_match_reasons default_engine sample_needs
            (specs_of product_A)) =
  length (_calculate_satisfaction_scores sample_needs (specs_of product_A)).
Proof.
  apply (need_clauses_for_matched_attributes default_engine sample_needs
           (specs_of product_A)).
  vm_compute. reflexivity.
Defined.

(** ** Ranking and truncation *)

Lemma insert_desc_perm r l : Permutation (insert_desc r l) (r :: l).
Proof.
  induction l as [|r' rest IH]; simpl; [reflexivity|].
  destruct (Py.gt (score r') (score r)); [|reflexivity].
  rewrite IH. apply perm_swap.
Qed.

Lemma sort_desc_perm l : Permutation (sort_desc l) l.
Proof.
  induction l as [|r rest IH]; simpl; [reflexivity|].
  rewrite insert_desc_perm. constructor. exact IH.
Qed.

Lemma sort_desc_length l : length (sort_desc l) = length l.
Proof. apply Permutation_length, sort_desc_perm. Qed.

Lemma evaluate_products_length self needs budget products :
  length (evaluate_products self needs budget products) =
  length (List.filter (eligible self needs budget) products).
Proof.
  rewrite <- evaluate_products_catalog_order. symmetry. apply List.length_map.
Qed.

Lemma slice_to_length_exact {A} (l : list A) n :
  Z.of_nat (length (Py.slice_to l n)) =
  if (0 <=? n)%Z then Z.min n (Z.of_nat (length l))
  else Z.max 0 (Z.of_nat (length l) + n).
Proof.
  unfold Py.slice_to. destruct (Z.leb_spec 0 n); rewrite List.length_firstn; lia.
Qed.

Lemma sorted_app_bound l1 l2 :
  StronglySorted desc (l1 ++ l2) ->
  forall a b, In a l1 -> In b l2 -> score b <= score a.
Proof.
  induction l1 as [|x l1 IH]; intros Hs a b Ha Hb; [destruct Ha|].
  cbn [app] in Hs. inversion Hs as [|? ? Htail Hall]; subst.
  destruct Ha as [<-|Ha].
  - rewrite List.Forall_forall in Hall. apply Hall.
    apply in_or_app. right. exact Hb.
  - apply (IH Htail a b Ha Hb).
Qed.

(** X9.  The number of recommendations returned: with [n] eligible products
    it is [min(max_recommendations, n)] for a [max_recommendations] that is
    not negative, and [max(0, n + max_recommendations)] for a negative one,
    which makes the slice drop entries from the low end of the ranking. *)
Theorem recommend_length
    (self : RecommendationEngine) (needs : Needs) (budget : Q)
    (products : list Product) :
  Z.of_nat (length (recommend self needs budget products)) =
  let n := Z.of_nat (length (List.filter (eligible self needs budget) products)) in
  if (0 <=? max_recommendations (config self))%Z
  then Z.min (max_recommendations (config self)) n
  else Z.max 0 (n + max_recommendations (config self)).
Proof.
  unfold recommend, _sort_and_limit_recommendations.
  rewrite slice_to_length_exact, sort_desc_length, evaluate_products_length.
  reflexivity.
Qed.

(** X10.  What the truncation leaves out never outranks what it keeps: the
    eligible recommendations are the output together with a list of dropped
    ones, and no dropped recommendation has a score above that of a returned
    one. *)
Theorem truncation_keeps_the_best
    (self : RecommendationEngine) (needs : Needs) (budget : Q)
    (products : list Product) :
  exists dropped,
    Permutation (evaluate_products self needs budget products)
      (recommend self needs budget products ++ dropped) /\
    forall a b, In a (recommend self needs budget products) ->
      In b dropped -> score b <= score a.
Proof.
  set (evaluated := evaluate_products self needs budget products).
  set (out := recommend self needs budget products).
  assert (Hpre : exists rest, sort_desc evaluated = out ++ rest)
    by apply slice_to_prefix.
  destruct Hpre as [rest Hrest]. exists rest. split.
  - rewrite <- Hrest. symmetry. apply sort_desc_perm.
  - apply sorted_app_bound. rewrite <- Hrest. apply sort_desc_sorted.
Qed.

Lemma filter_none {A} (f : A -> bool) (l : list A) :
  (forall x, In x l -> f x = false) -> List.filter f l = [].
Proof.
  induction l as [|x l IH]; intros H; [reflexivity|]. cbn [List.filter].
  rewrite (H x) by (left; reflexivity).
  apply IH. intros y Hy. apply H. right. exact Hy.
Qed.

(** X11.  With a positive [max_recommendations], [recommend] returns the
    empty list exactly when no product of the catalog is eligible. *)
Theorem recommend_empty_iff_none_eligible
    (self : RecommendationEngine) (needs : Needs) (budget : Q)
    (products : list Product) :
  (0 < max_recommendations (config self))%Z ->
  (recommend self needs budget products = [] <->
   forall p, In p products -> eligible self needs budget p = false).
Proof.
  intros Hmax.
  assert (Hlen : Z.of_nat (length (recommend self needs budget products)) =
                 Z.min (max_recommendations (config self))
                   (Z.of_nat (length (List.filter (eligible self needs budget)
                                        products)))).
  { unfold recommend, _sort_and_limit_recommendations.
    rewrite slice_to_length_exact, sort_desc_length, evaluate_products_length.
    destruct (Z.leb_spec 0 (max_recommendations (config self))); [reflexivity|lia]. }
  split.
  - intros Hempty p Hin. rewrite Hempty in Hlen. cbn [length] in Hlen.
    destruct (eligible self needs budget p) eqn:He; [|reflexivity].
    assert (Hf : In p (List.filter (eligible self needs budget) products))
      by (apply List.filter_In; auto).
    destruct (List.filter (eligible self needs budget) products);
      [destruct Hf|cbn [length] in Hlen; lia].
  - intros Hnone.
    assert (Hf : List.filter (eligible self needs budget) products = []).
    { apply filter_none, Hnone. }
    rewrite Hf in Hlen. cbn [length] in Hlen.
    destruct (recommend self needs budget products); [reflexivity|].
    cbn [length] in Hlen. lia.
Qed.

Lemma recommend_empty_iff_none_eligible_witness :
  recommend default_engine [("data", 100)] 500 [product_A; product_B] = [].
Proof.
  apply (recommend_empty_iff_none_eligible default_engine [("data", 100)] 500
           [product_A; product_B]).
  - reflexivity.
  - intros p [<-|[<-|[]]]; vm_compute; reflexivity.
Defined.

(** X12.  Every recommendation returned is the evaluation of its own
    product: its scores and its reason are the ones
    [_evaluate_single_product] computes for the product it refers to. *)
Theorem recommendation_matches_its_product
    (self : RecommendationEngine) (needs : Needs) (budget : Q)
    (products : list Product) (r : Recommendation) :
  In r (recommend self needs budget products) ->
  _evaluate_single_product self needs budget (product r) = Some r.
Proof. apply recommended_is_evaluation. Qed.

Lemma recommendation_matches_its_product_witness :
  _evaluate_single_product default_engine sample_needs 120
    (product sample_recommendation) = Some sample_recommendation.
Proof.
  apply (recommendation_matches_its_product default_engine sample_needs 120
           [product_A] sample_recommendation).
  vm_compute. left. reflexivity.
Defined.

(** ** The buckets of the diagnosis *)

Lemma analyze_step self p rest needs budget a :
  _analyze_product_mismatch self (p :: rest) needs budget a =
  _analyze_product_mismatch self rest needs budget
    (scan_product self needs budget p a).
Proof.
  cbn [_analyze_product_mismatch]. rewrite price_resolution. reflexivity.
Qed.

Lemma over_budget_test self needs budget p :
  _is_over_budget_but_specs_satisfy self (specs_of p) needs (price_fallback p)
    budget =
  specs_satisfy (specs_of p) needs && negb (within_tolerance self budget p).
Proof. reflexivity. Qed.

Lemma record_insufficient_over (sp : gmap string Q) needs p a :
  over_budget_products (record_insufficient sp needs p a) =
  over_budget_products a.
Proof.
  revert a. induction needs as [|[k v] rest IH]; intros a;
    cbn [record_insufficient]; [reflexivity|].
  destruct (Py.lt _ v); rewrite IH; reflexivity.
Qed.

Lemma record_insufficient_suggestions (sp : gmap string Q) needs p a :
  suggestions (record_insufficient sp needs p a) = suggestions a.
Proof.
  revert a. induction needs as [|[k v] rest IH]; intros a;
    cbn [record_insufficient]; [reflexivity|].
  destruct (Py.lt _ v); rewrite IH; reflexivity.
Qed.

Lemma scan_product_over self needs budget p a :
  over_budget_products (scan_product self needs budget p a) =
  over_budget_products a ++
  (if specs_satisfy (specs_of p) needs && negb (within_tolerance self budget p)
   then [p] else []).
Proof.
  unfold scan_product, _check_insufficient_specs.
  rewrite over_budget_test.
  destruct (Py.le _ _); [rewrite record_insufficient_over|];
    destruct (specs_satisfy _ _ && _); cbn [over_budget_products];
    rewrite ?app_nil_r; reflexivity.
Qed.

Lemma analyze_over self products needs budget a :
  over_budget_products (_analyze_product_mismatch self products needs budget a) =
  over_budget_products a ++
  List.filter
    (fun p => specs_satisfy (specs_of p) needs
              && negb (within_tolerance self budget p))
    products.
Proof.
  revert a. induction products as [|p rest IH]; intros a.
  - cbn. rewrite app_nil_r. reflexivity.
  - rewrite analyze_step, IH, scan_product_over. cbn [List.filter].
    destruct (specs_satisfy _ _ && _); rewrite <- app_assoc; reflexivity.
Qed.

Lemma dict_get_append key k p (d : list (string * list Product)) :
  dict_get key (dict_append k p d) =
  if String.eqb k key then dict_get key d ++ [p] else dict_get key d.
Proof.
  induction d as [|[k0 ps] rest IH]; cbn [dict_append dict_get].
  - destruct (String.eqb k key); reflexivity.
  - destruct (String.eqb_spec k0 k) as [->|Hne]; cbn [dict_get].
    + destruct (String.eqb k key); reflexivity.
    + rewrite IH. destruct (String.eqb_spec k0 key) as [->|Hne'];
        [|reflexivity].
      destruct (String.eqb_spec k key) as [->|_]; [congruence|reflexivity].
Qed.

Lemma record_insufficient_get key needs p a :
  dict_get key
    (insufficient_specs (record_insufficient (specs_of p) needs p a)) =
  dict_get key (insufficient_specs a) ++ recorded_under key needs p.
Proof.
  unfold recorded_under. revert a.
  induction needs as [|[k v] rest IH]; intros a;
    cbn [record_insufficient flat_map].
  - rewrite app_nil_r. reflexivity.
  - unfold short_of at 1.
    destruct (Py.lt (default 0 (specs_of p !! k)) v).
    + rewrite IH. cbn [insufficient_specs]. rewrite dict_get_append.
      destruct (String.eqb k key); cbn [andb]; rewrite <- ?app_assoc; reflexivity.
    + rewrite IH, andb_false_r. reflexivity.
Qed.

Lemma scan_product_get self key needs budget p a :
  dict_get key (insufficient_specs (scan_product self needs budget p a)) =
  dict_get key (insufficient_specs a) ++
  (if within_tolerance self budget p then recorded_under key needs p else []).
Proof.
  unfold scan_product, _check_insufficient_specs.
  fold (within_tolerance self budget p).
  destruct (within_tolerance self budget p).
  - rewrite record_insufficient_get.
    destruct (_is_over_budget_but_specs_satisfy _ _ _ _ _); reflexivity.
  - rewrite app_nil_r.
    destruct (_is_over_budget_but_specs_satisfy _ _ _ _ _); reflexivity.
Qed.

Lemma analyze_get self key products needs budget a :
  dict_get key
    (insufficient_specs (_analyze_product_mismatch self products needs budget a)) =
  dict_get key (insufficient_specs a) ++
  flat_map
    (fun p => if within_tolerance self budget p
              then recorded_under key needs p else [])
    products.
Proof.
  revert a. induction products as [|p rest IH]; intros a.
  - cbn. rewrite app_nil_r. reflexivity.
  - rewrite analyze_step, IH, scan_product_get. cbn [flat_map].
    rewrite <- app_assoc. reflexivity.
Qed.

Lemma dict_append_keys key k p (d : list (string * list Product)) :
  In key (map fst (dict_append k p d)) <-> key = k \/ In key (map fst d).
Proof.
  induction d as [|[k0 ps] rest IH]; cbn [dict_append map fst In].
  - intuition.
  - destruct (String.eqb_spec k0 k) as [->|Hne]; cbn [map fst In].
    + intuition.
    + rewrite IH. intuition.
Qed.

Lemma dict_append_NoDup k p (d : list (string * list Product)) :
  List.NoDup (map fst d) -> List.NoDup (map fst (dict_append k p d)).
Proof.
  induction d as [|[k0 ps] rest IH]; cbn [dict_append map fst]; intros H.
  - constructor; [intros []|constructor].
  - inversion H as [|? ? Hnot Hrest]; subst.
    destruct (String.eqb_spec k0 k) as [->|Hne]; cbn [map fst].
    + constructor; assumption.
    + constructor; [|apply IH, Hrest].
      rewrite dict_append_keys. intros [->|Hin]; [congruence|auto].
Qed.

Lemma dict_get_of_entry k ps (d : list (string * list Product)) :
  List.NoDup (map fst d) -> In (k, ps) d -> dict_get k d = ps.
Proof.
  induction d as [|[k0 ps0] rest IH]; cbn [map fst dict_get]; intros Hnd Hin;
    [destruct Hin|].
  inversion Hnd as [|? ? Hnot Hrest]; subst.
  destruct Hin as [Heq|Hin].
  - inversion Heq; subst. rewrite String.eqb_refl. reflexivity.
  - destruct (String.eqb_spec k0 k) as [->|Hne]; [|apply IH; assumption].
    exfalso. apply Hnot. apply (List.in_map fst) in Hin. exact Hin.
Qed.

Lemma record_insufficient_keys (sp : gmap string Q) needs p a :
  List.NoDup (map fst (insufficient_specs a)) ->
  List.NoDup (map fst (insufficient_specs (record_insufficient sp needs p a))) /\
  forall key,
    In key (map fst (insufficient_specs (record_insufficient sp needs p a))) ->
    In key (map fst needs) \/ In key (map fst (insufficient_specs a)).
Proof.
  revert a. induction needs as [|[k v] rest IH]; intros a Hnd;
    cbn [record_insufficient].
  - split; [exact Hnd|auto].
  - destruct (Py.lt _ v).
    + destruct (IH {| over_budget_products := over_budget_products a;
                      insufficient_specs :=
                        dict_append k p (insufficient_specs a);
                      suggestions := suggestions a |}) as [H1 H2].
      { cbn [insufficient_specs]. apply dict_append_NoDup, Hnd. }
      split; [exact H1|]. intros key Hkey.
      destruct (H2 key Hkey) as [Hin|Hin]; [left; right; exact Hin|].
      cbn [insufficient_specs] in Hin. apply dict_append_keys in Hin.
      destruct Hin as [->|Hin]; [left; left; reflexivity|right; exact Hin].
    + destruct (IH a Hnd) as [H1 H2]. split; [exact H1|].
      intros key Hkey. destruct (H2 key Hkey); [left; right|right]; assumption.
Qed.

Lemma scan_product_keys self needs budget p a :
  List.NoDup (map fst (insufficient_specs a)) ->
  List.NoDup (map fst (insufficient_specs (scan_product self needs budget p a))) /\
  forall key,
    In key (map fst (insufficient_specs (scan_product self needs budget p a))) ->
    In key (map fst needs) \/ In key (map fst (insufficient_specs a)).
Proof.
  intros Hnd. unfold scan_product, _check_insufficient_specs.
  destruct (Py.le _ _).
  - destruct (_is_over_budget_but_specs_satisfy _ _ _ _ _).
    + exact (record_insufficient_keys (specs_of p) needs p
               {| over_budget_products := over_budget_products a ++ [p];
                  insufficient_specs := insufficient_specs a;
                  suggestions := suggestions a |} Hnd).
    + apply record_insufficient_keys; exact Hnd.
  - destruct (_is_over_budget_but_specs_satisfy _ _ _ _ _); split; auto.
Qed.

Lemma analyze_keys self products needs budget a :
  List.NoDup (map fst (insufficient_specs a)) ->
  List.NoDup
    (map fst
       (insufficient_specs
          (_analyze_product_mismatch self products needs budget a))) /\
  forall key,
    In key
      (map fst
         (insufficient_specs
            (_analyze_product_mismatch self products needs budget a))) ->
    In key (map fst needs) \/ In key (map fst (insufficient_specs a)).
Proof.
  revert a. induction products as [|p rest IH]; intros a Hnd.
  - split; [exact Hnd|auto].
  - rewrite analyze_step.
    destruct (scan_product_keys self needs budget p a Hnd) as [H1 H2].
    destruct (IH _ H1) as [H3 H4]. split; [exact H3|].
    intros key Hkey. destruct (H4 key Hkey) as [Hin|Hin]; [left; exact Hin|].
    apply H2, Hin.
Qed.

Lemma analyze_suggestions self products needs budget a :
  suggestions (_analyze_product_mismatch self products needs budget a) =
  suggestions a.
Proof.
  revert a. induction products as [|p rest IH]; intros a; [reflexivity|].
  rewrite analyze_step, IH. unfold scan_product, _check_insufficient_specs.
  destruct (Py.le _ _); [rewrite record_insufficient_suggestions|];
    destruct (_is_over_budget_but_specs_satisfy _ _ _ _ _); reflexivity.
Qed.

Lemma spec_suggestions_length entries ts :
  spec_suggestions entries = Some ts -> length ts = length entries.
Proof.
  revert ts. induction entries as [|[k ps] rest IH]; intros ts;
    cbn [spec_suggestions].
  - intros H. inversion H. reflexivity.
  - destruct (Py.max_of _) as [m|]; [|discriminate]. cbn.
    destruct (spec_suggestions rest) as [more|]; [|discriminate]. cbn.
    intros H. inversion H. cbn. rewrite (IH more); reflexivity.
Qed.

Lemma analyze_no_match_reason_shape self needs budget products :
  exists sugg,
    analyze_no_match_reason self needs budget products =
    Some {| over_budget_products :=
              over_budget_products
                (_analyze_product_mismatch self products needs budget
                   empty_analysis);
            insufficient_specs :=
              insufficient_specs
                (_analyze_product_mismatch self products needs budget
                   empty_analysis);
            suggestions := sugg |} /\
    length sugg =
    (match over_budget_products
             (_analyze_product_mismatch self products needs budget
                empty_analysis) with
     | [] => 0
     | _ => 1
     end
     + length (insufficient_specs
                 (_analyze_product_mismatch self products needs budget
                    empty_analysis)))%nat.
Proof.
  unfold analyze_no_match_reason. fold empty_analysis.
  pose proof (analyze_suggestions self products needs budget empty_analysis)
    as Hsug.
  set (a := _analyze_product_mismatch self products needs budget _) in *.
  assert (Hne : List.Forall (fun e => snd e <> []) (insufficient_specs a)).
  { apply analyze_product_mismatch_nonempty. constructor. }
  clearbody a. cbn [empty_analysis suggestions] in Hsug.
  destruct (spec_suggestions_total _ Hne) as (ts & Hts & _).
  pose proof (spec_suggestions_length _ _ Hts) as Hlen.
  unfold _generate_improvement_suggestions. rewrite Hts, Hsug.
  destruct (over_budget_products a) as [|p0 l0] eqn:Hob.
  - eexists. split; [reflexivity|]. cbn. exact Hlen.
  - destruct (Py.min_of _) as [m0|] eqn:Hmin; [|discriminate].
    eexists. split; [reflexivity|]. cbn. rewrite Hlen. reflexivity.
Qed.

Lemma recorded_under_In key needs p q :
  In q (recorded_under key needs p) ->
  q = p /\ exists v, In (key, v) needs /\ short_of key v p = true.
Proof.
  unfold recorded_under. induction needs as [|[k v] rest IH]; cbn [flat_map];
    [intros []|].
  intros Hin. apply in_app_or in Hin as [Hin|Hin].
  - destruct (String.eqb_spec k key) as [->|Hne]; cbn [andb] in Hin;
      [|destruct Hin].
    destruct (short_of key v p) eqn:Hs; [|destruct Hin].
    destruct Hin as [<-|[]]. split; [reflexivity|].
    exists v. split; [left; reflexivity|exact Hs].
  - destruct (IH Hin) as (Hq & v' & Hv' & Hs). split; [exact Hq|].
    exists v'. split; [right; exact Hv'|exact Hs].
Qed.

Lemma recorded_under_absent key needs p :
  ~ In key (map fst needs) -> recorded_under key needs p = [].
Proof.
  unfold recorded_under. induction needs as [|[k v] rest IH];
    cbn [flat_map map fst In]; intros Hnot; [reflexivity|].
  destruct (String.eqb_spec k key) as [->|Hne]; [tauto|].
  cbn [andb app]. apply IH. tauto.
Qed.

Lemma recorded_under_unique key v needs p :
  List.NoDup (map fst needs) -> In (key, v) needs ->
  recorded_under key needs p = if short_of key v p then [p] else [].
Proof.
  induction needs as [|[k0 v0] rest IH]; cbn [map fst]; intros Hnd Hin;
    [destruct Hin|].
  inversion Hnd as [|? ? Hnot Hrest]; subst.
  change (recorded_under key ((k0, v0) :: rest) p)
    with ((if String.eqb k0 key && short_of k0 v0 p then [p] else [])
          ++ recorded_under key rest p).
  destruct Hin as [Heq|Hin].
  - inversion Heq; subst. rewrite String.eqb_refl. cbn [andb].
    rewrite (recorded_under_absent key rest p Hnot), app_nil_r. reflexivity.
  - destruct (String.eqb_spec k0 key) as [->|Hne].
    + exfalso. apply Hnot. apply (List.in_map fst) in Hin. exact Hin.
    + cbn [andb app]. apply IH; assumption.
Qed.

Lemma flat_map_filter {A} (f : A -> bool) (l : list A) :
  flat_map (fun x => if f x then [x] else []) l = List.filter f l.
Proof.
  induction l as [|x l IH]; cbn [flat_map List.filter]; [reflexivity|].
  rewrite IH. destruct (f x); reflexivity.
Qed.

Lemma insufficient_entry_sound self needs budget products k ps p :
  In (k, ps)
    (insufficient_specs
       (_analyze_product_mismatch self products needs budget empty_analysis)) ->
  In p ps ->
  In p products /\ within_tolerance self budget p = true /\
  exists v, In (k, v) needs /\ short_of k v p = true.
Proof.
  intros Hentry Hp.
  destruct (analyze_keys self products needs budget empty_analysis) as [Hnd _];
    [constructor|].
  apply (dict_get_of_entry _ _ _ Hnd) in Hentry.
  rewrite analyze_get in Hentry. cbn [empty_analysis insufficient_specs dict_get app]
    in Hentry.
  rewrite <- Hentry in Hp. apply List.in_flat_map in Hp as (q & Hq & Hin).
  destruct (within_tolerance self budget q) eqn:Hw; [|destruct Hin].
  apply recorded_under_In in Hin as (-> & v & Hv & Hs).
  split; [exact Hq|]. split; [exact Hw|]. exists v. auto.
Qed.

(** X13.  [over_budget_products] of the diagnosis holds, in catalog order,
    exactly the products that meet every need (an absent attribute counting
    as 0) and whose price exceeds the tolerated budget. *)
Theorem diagnosis_over_budget_exact
    (self : RecommendationEngine) (needs : Needs) (budget : Q)
    (products : list Product) :
  exists d, analyze_no_match_reason self needs budget products = Some d /\
    over_budget_products d =
    List.filter
      (fun p => specs_satisfy (specs_of p) needs
                && negb (within_tolerance self budget p))
      products.
Proof.
  destruct (analyze_no_match_reason_shape self needs budget products)
    as (sugg & Hd & _).
  eexists. split; [exact Hd|]. cbn [over_budget_products].
  rewrite analyze_over. reflexivity.
Qed.

(** X14.  For needs with pairwise distinct keys, what [insufficient_specs]
    holds under a requested attribute is, in catalog order, exactly the
    products priced within the tolerated budget that fall short of that need
    (an absent attribute counting as 0); nothing is held under any other
    key. *)
Theorem diagnosis_insufficient_exact
    (self : RecommendationEngine) (needs : Needs) (budget : Q)
    (products : list Product) :
  List.NoDup (map fst needs) ->
  exists d, analyze_no_match_reason self needs budget products = Some d /\
    (forall k v, In (k, v) needs ->
       dict_get k (insufficient_specs d) =
       List.filter
         (fun p => within_tolerance self budget p && short_of k v p) products) /\
    (forall k, ~ In k (map fst needs) -> dict_get k (insufficient_specs d) = []).
Proof.
  intros Hnd.
  destruct (analyze_no_match_reason_shape self needs budget products)
    as (sugg & Hd & _).
  eexists. split; [exact Hd|]. cbn [insufficient_specs]. split.
  - intros k v Hin. rewrite analyze_get. cbn [empty_analysis insufficient_specs
      dict_get app].
    rewrite <- flat_map_filter. apply List.flat_map_ext. intros p.
    rewrite (recorded_under_unique k v needs p Hnd Hin).
    destruct (within_tolerance self budget p); reflexivity.
  - intros k Hnot. rewrite analyze_get. cbn [empty_analysis insufficient_specs
      dict_get app].
    clear Hd. induction products as [|p rest IH]; [reflexivity|]. cbn [flat_map].
    rewrite IH, (recorded_under_absent k needs p Hnot).
    destruct (within_tolerance self budget p); reflexivity.
Qed.

Lemma diagnosis_insufficient_exact_witness :
  exists d,
    analyze_no_match_reason default_engine [("data", 100)] 500
      [product_A; product_B] = Some d /\
    dict_get "data" (insufficient_specs d) =
    List.filter
      (fun p => within_tolerance default_engine 500 p && short_of "data" 100 p)
      [product_A; product_B].
Proof.
  destruct (diagnosis_insufficient_exact default_engine [("data", 100)] 500
              [product_A; product_B]) as (d & Hd & Hin & _).
  - constructor; [intros []|constructor].
  - exists d. split; [exact Hd|]. apply Hin. left. reflexivity.
Defined.

(** X15.  The keys of [insufficient_specs] are pairwise distinct and are
    keys of the needs; no entry is empty; and every product recorded under a
    key is a product of the catalog priced within the tolerated budget that
    falls short of a need with that key. *)
Theorem diagnosis_insufficient_sound
    (self : RecommendationEngine) (needs : Needs) (budget : Q)
    (products : list Product) :
  exists d, analyze_no_match_reason self needs budget products = Some d /\
    List.NoDup (map fst (insufficient_specs d)) /\
    forall k ps, In (k, ps) (insufficient_specs d) ->
      In k (map fst needs) /\ ps <> [] /\
      forall p, In p ps ->
        In p products /\ within_tolerance self budget p = true /\
        exists v, In (k, v) needs /\ short_of k v p = true.
Proof.
  destruct (analyze_no_match_reason_shape self needs budget products)
    as (sugg & Hd & _).
  destruct (analyze_keys self products needs budget empty_analysis)
    as [Hnd Hkeys]; [constructor|].
  eexists. split; [exact Hd|]. cbn [insufficient_specs].
  split; [exact Hnd|]. intros k ps Hentry. split; [|split].
  - destruct (Hkeys k) as [Hin|[]]; [|exact Hin].
    apply (List.in_map fst) in Hentry. exact Hentry.
  - assert (Hne : List.Forall (fun e => snd e <> [])
                    (insufficient_specs
                       (_analyze_product_mismatch self products needs budget
                          empty_analysis))).
    { apply analyze_product_mismatch_nonempty. constructor. }
    rewrite List.Forall_forall in Hne. apply (Hne (k, ps) Hentry).
  - intros p Hp. eapply insufficient_entry_sound; eauto.
Qed.

Lemma over_tolerance_not_eligible self needs budget p :
  within_tolerance self budget p = false -> eligible self needs budget p = false.
Proof.
  unfold within_tolerance, eligible, check_basic_requirements, Py.gt, Py.lt,
    Py.le.
  intros H. rewrite H. reflexivity.
Qed.

Lemma short_present_not_eligible self needs budget p k v :
  In (k, v) needs -> short_of k v p = true -> is_Some (specs_of p !! k) ->
  eligible self needs budget p = false.
Proof.
  intros Hin Hshort [pv Hpv].
  destruct (eligible self needs budget p) eqn:He; [|reflexivity].
  exfalso. unfold eligible, check_basic_requirements in He.
  destruct (Py.gt _ _); [discriminate|].
  pose proof (proj1 (check_needs_true needs (specs_of p)) He k v pv Hin Hpv)
    as Hle.
  unfold short_of in Hshort. rewrite Hpv in Hshort. cbn in Hshort.
  apply lt_true in Hshort. eapply Qlt_not_le; eauto.
Qed.

(** X16.  The two buckets of the diagnosis never share a product: a product
    listed in [over_budget_products] is recorded under no key of
    [insufficient_specs]. *)
Theorem diagnosis_buckets_disjoint
    (self : RecommendationEngine) (needs : Needs) (budget : Q)
    (products : list Product) :
  exists d, analyze_no_match_reason self needs budget products = Some d /\
    forall p k ps,
      In p (over_budget_products d) -> In (k, ps) (insufficient_specs d) ->
      ~ In p ps.
Proof.
  destruct (analyze_no_match_reason_shape self needs budget products)
    as (sugg & Hd & _).
  eexists. split; [exact Hd|].
  cbn [over_budget_products insufficient_specs].
  intros p k ps Hover Hentry Hp.
  rewrite analyze_over in Hover. cbn [empty_analysis over_budget_products app]
    in Hover.
  apply List.filter_In in Hover as [_ Hover].
  apply andb_true_iff in Hover as [_ Hover].
  destruct (insufficient_entry_sound self needs budget products k ps p Hentry Hp)
    as (_ & Hw & _).
  rewrite Hw in Hover. discriminate.
Qed.

Lemma scan_product_blind self needs budget p a :
  within_tolerance self budget p = false ->
  specs_satisfy (specs_of p) needs = false ->
  scan_product self needs budget p a = a.
Proof.
  intros Hw Hs. unfold scan_product, _check_insufficient_specs.
  rewrite over_budget_test, Hs. cbn [andb].
  fold (within_tolerance self budget p). rewrite Hw. reflexivity.
Qed.

(** X17.  A product that is both over the tolerated budget and short of a
    need is put in neither bucket: for a catalog made of such products only,
    the diagnosis comes back with all three fields empty, so no suggestion
    is made although nothing can be recommended. *)
Theorem diagnosis_blind_spot
    (self : RecommendationEngine) (needs : Needs) (budget : Q)
    (products : list Product) :
  (forall p, In p products ->
     within_tolerance self budget p = false /\
     specs_satisfy (specs_of p) needs = false) ->
  analyze_no_match_reason self needs budget products = Some empty_analysis /\
  forall p, In p products -> eligible self needs budget p = false.
Proof.
  intros H. split.
  - unfold analyze_no_match_reason. fold empty_analysis.
    assert (Ha : _analyze_product_mismatch self products needs budget
                   empty_analysis = empty_analysis).
    { generalize empty_analysis. induction products as [|p rest IH]; intros a;
        [reflexivity|].
      destruct (H p) as [Hw Hs]; [left; reflexivity|].
      rewrite analyze_step, scan_product_blind by assumption.
      apply IH. intros q Hq. apply H. right. exact Hq. }
    rewrite Ha. reflexivity.
  - intros p Hp. apply over_tolerance_not_eligible. apply (H p Hp).
Qed.

Lemma diagnosis_blind_spot_witness :
  analyze_no_match_reason default_engine [("data", 100)] 50
    [product_A; product_B] = Some empty_analysis.
Proof.
  apply (diagnosis_blind_spot default_engine [("data", 100)] 50
           [product_A; product_B]).
  intros p [<-|[<-|[]]]; split; vm_compute; reflexivity.
Defined.

(** X18.  The diagnosis makes one suggestion about the budget when
    [over_budget_products] is not empty and one for every key of
    [insufficient_specs]; so it makes no suggestion exactly when both buckets
    are empty. *)
Theorem diagnosis_suggestion_count
    (self : RecommendationEngine) (needs : Needs) (budget : Q)
    (products : list Product) :
  exists d, analyze_no_match_reason self needs budget products = Some d /\
    length (suggestions d) =
      (match over_budget_products d with [] => 0 | _ => 1 end
       + length (insufficient_specs d))%nat /\
    (suggestions d = [] <->
     over_budget_products d = [] /\ insufficient_specs d = []).
Proof.
  destruct (analyze_no_match_reason_shape self needs budget products)
    as (sugg & Hd & Hlen).
  eexists. split; [exact Hd|].
  cbn [over_budget_products insufficient_specs suggestions].
  split; [exact Hlen|].
  destruct (over_budget_products _) as [|p0 l0];
    destruct (insufficient_specs _) as [|e0 l1];
    destruct sugg as [|s0 sugg']; cbn [length Nat.add] in Hlen;
    try discriminate; split; try tauto; try discriminate;
    intros [? ?]; discriminate.
Qed.

(** X19.  The diagnosis and the eligibility check agree on the products
    that carry the attributes in question: no product listed in
    [over_budget_products] is eligible, and no product recorded under a key
    of [insufficient_specs] that has this attribute in its specs is
    eligible. *)
Theorem diagnosed_products_not_eligible
    (self : RecommendationEngine) (needs : Needs) (budget : Q)
    (products : list Product) :
  exists d, analyze_no_match_reason self needs budget products = Some d /\
    (forall p, In p (over_budget_products d) ->
       eligible self needs budget p = false) /\
    (forall p k ps, In (k, ps) (insufficient_specs d) -> In p ps ->
       is_Some (specs_of p !! k) -> eligible self needs budget p = false).
Proof.
  destruct (analyze_no_match_reason_shape self needs budget products)
    as (sugg & Hd & _).
  eexists. split; [exact Hd|].
  cbn [over_budget_products insufficient_specs]. split.
  - intros p Hover. rewrite analyze_over in Hover.
    cbn [empty_analysis over_budget_products app] in Hover.
    apply List.filter_In in Hover as [_ Hover].
    apply andb_true_iff in Hover as [_ Hover].
    apply over_tolerance_not_eligible.
    destruct (within_tolerance self budget p); [discriminate|reflexivity].
  - intros p k ps Hentry Hp Hsome.
    destruct (insufficient_entry_sound self needs budget products k ps p Hentry Hp)
      as (_ & _ & v & Hv & Hs).
    eapply short_present_not_eligible; eauto.
Qed.

(** * Catalog sources *)

Lemma first_of_carrier_unknown sources c :
  ~ In c (map get_carrier_name sources) -> first_of_carrier sources c = [].
Proof.
  induction sources as [|src rest IH]; cbn [first_of_carrier map In];
    intros Hnot; [reflexivity|].
  destruct (String.eqb_spec (get_carrier_name src) c) as [He|Hne]; [tauto|].
  apply IH. tauto.
Qed.

Lemma first_of_carrier_known sources c :
  In c (map get_carrier_name sources) ->
  exists before src after,
    sources = before ++ src :: after /\
    get_carrier_name src = c /\
    ~ In c (map get_carrier_name before) /\
    first_of_carrier sources c = get_packages src.
Proof.
  induction sources as [|src rest IH]; cbn [first_of_carrier map In];
    intros Hin; [destruct Hin|].
  destruct (String.eqb_spec (get_carrier_name src) c) as [He|Hne].
  - exists [], src, rest. cbn [app map In]. repeat split; auto.
  - destruct Hin as [Hin|Hin]; [congruence|].
    destruct (IH Hin) as (before & src' & after & Hs & Hn & Hb & Hf).
    exists (src :: before), src', after. cbn [app map In].
    split; [rewrite Hs; reflexivity|]. split; [exact Hn|].
    split; [tauto|exact Hf].
Qed.

Lemma first_of_carrier_app_known s1 s2 c :
  In c (map get_carrier_name s1) ->
  first_of_carrier (s1 ++ s2) c = first_of_carrier s1 c.
Proof.
  induction s1 as [|src rest IH]; cbn [first_of_carrier map In app];
    intros Hin; [destruct Hin|].
  destruct (String.eqb_spec (get_carrier_name src) c) as [He|Hne];
    [reflexivity|].
  destruct Hin as [Hin|Hin]; [congruence|]. apply IH, Hin.
Qed.

Lemma first_of_carrier_app_unknown s1 s2 c :
  ~ In c (map get_carrier_name s1) ->
  first_of_carrier (s1 ++ s2) c = first_of_carrier s2 c.
Proof.
  induction s1 as [|src rest IH]; cbn [first_of_carrier map In app];
    intros Hnot; [reflexivity|].
  destruct (String.eqb_spec (get_carrier_name src) c) as [He|Hne]; [tauto|].
  apply IH. tauto.
Qed.

Lemma extend_all_app s1 s2 :
  extend_all (s1 ++ s2) = extend_all s1 ++ extend_all s2.
Proof.
  induction s1 as [|src rest IH]; cbn [extend_all app]; [reflexivity|].
  rewrite IH, app_assoc. reflexivity.
Qed.

(** X20.  [get_packages_by_carrier] answers with the packages of the first
    registered source of that carrier name, and with the empty list when no
    source has the name; it never raises for an unknown carrier. *)
Theorem get_packages_by_carrier_first_match
    (self : DataSourceManager) (carrier : string) :
  (~ In carrier (get_available_carriers self) ->
   get_packages_by_carrier self carrier = []) /\
  (In carrier (get_available_carriers self) ->
   exists before source after,
     data_sources self = before ++ source :: after /\
     get_carrier_name source = carrier /\
     ~ In carrier (map get_carrier_name before) /\
     get_packages_by_carrier self carrier = get_packages source).
Proof.
  split.
  - apply first_of_carrier_unknown.
  - apply first_of_carrier_known.
Qed.

(** X21.  Every package that [get_packages_by_carrier] returns is among the
    packages of [get_all_packages]. *)
Theorem carrier_packages_among_all
    (self : DataSourceManager) (carrier : string) (p : Product) :
  In p (get_packages_by_carrier self carrier) -> In p (get_all_packages self).
Proof.
  unfold get_packages_by_carrier, get_all_packages.
  induction (data_sources self) as [|src rest IH];
    cbn [first_of_carrier extend_all]; [tauto|].
  intros Hin. apply in_or_app.
  destruct (String.eqb (get_carrier_name src) carrier); [left; exact Hin|].
  right. apply IH, Hin.
Qed.

(** X22.  Registering a source appends its packages to [get_all_packages]
    and its name to [get_available_carriers].  Looked up by carrier, it is
    found under its name only if no earlier source has that name: a lookup
    that succeeded before the registration answers the same after it. *)
Theorem register_source_lookup
    (self : DataSourceManager) (source : DataSource) (carrier : string) :
  get_all_packages (register_source self source) =
    get_all_packages self ++ get_packages source /\
  get_available_carriers (register_source self source) =
    get_available_carriers self ++ [get_carrier_name source] /\
  (In carrier (get_available_carriers self) ->
   get_packages_by_carrier (register_source self source) carrier =
   get_packages_by_carrier self carrier) /\
  (~ In carrier (get_available_carriers self) ->
   get_packages_by_carrier (register_source self source) carrier =
   if String.eqb (get_carrier_name source) carrier
   then get_packages source else []).
Proof.
  unfold get_all_packages, get_available_carriers, get_packages_by_carrier,
    register_source. cbn [data_sources].
  split; [|split; [|split]].
  - rewrite extend_all_app. cbn [extend_all]. rewrite app_nil_r. reflexivity.
  - rewrite List.map_app. reflexivity.
  - apply first_of_carrier_app_known.
  - intros Hnot. rewrite first_of_carrier_app_unknown by exact Hnot.
    cbn [first_of_carrier]. reflexivity.
Qed.

(** X23.  A request that filters on a carrier no source is registered for
    gets no recommendation and a diagnosis with nothing in it: the engine is
    run on the empty catalog. *)
Theorem unknown_carrier_filter
    (engine : RecommendationEngine) (data_manager : DataSourceManager)
    (needs : Needs) (budget : Q) (carrier : string) :
  carrier <> "" ->
  ~ In carrier (get_available_carriers data_manager) ->
  recommend engine needs budget
    (_get_packages_for_recommendation data_manager (Some carrier)) = [] /\
  analyze_no_match_reason engine needs budget
    (_get_packages_for_recommendation data_manager (Some carrier)) =
  Some empty_analysis.
Proof.
  intros Hne Hnot. unfold _get_packages_for_recommendation.
  destruct (String.eqb_spec carrier "") as [He|_]; [congruence|].
  unfold get_packages_by_carrier.
  rewrite (first_of_carrier_unknown _ _ Hnot).
  split; [|reflexivity].
  unfold recommend, _sort_and_limit_recommendations, Py.slice_to.
  cbn [evaluate_products sort_desc length].
  destruct (0 <=? _)%Z; apply List.firstn_nil.
Qed.

Lemma carrier_packages_among_all_witness :
  In product_B (get_all_packages sample_manager).
Proof.
  apply (carrier_packages_among_all sample_manager "中国移动" product_B).
  right. left. reflexivity.
Defined.

Lemma unknown_carrier_filter_witness :
  recommend default_engine sample_needs 200
    (_get_packages_for_recommendation sample_manager (Some "中国联通")) = [].
Proof.
  apply (unknown_carrier_filter default_engine sample_manager sample_needs 200
           "中国联通").
  - discriminate.
  - intros [H|[]]. discriminate H.
Defined.

(** * Validation of package data *)

Lemma check_spec_nil i (specs : gmap string json) spec :
  check_spec i specs spec = [] <->
  exists v, specs !! spec = Some v /\ is_number v = true.
Proof.
  unfold check_spec. destruct (specs !! spec) as [v|].
  - destruct (is_number v) eqn:En; cbn [negb]; split.
    + intros _. exists v. auto.
    + reflexivity.
    + discriminate.
    + intros (v' & Hv' & Hn). inversion Hv'; subst. congruence.
  - split; [discriminate|]. intros (v & Hv & _). discriminate.
Qed.

Lemma validate_package_nil i package :
  validate_package i package = [] <-> well_formed_package package.
Proof.
  unfold validate_package, well_formed_package, required_fields,
    required_specs, check_field, has_field.
  cbn [flat_map String.eqb Ascii.eqb Bool.eqb andb negb app In].
  destruct (package_name package) as [n|];
    destruct (package_specs package) as [specs|];
    cbn [bool_decide is_Some negb app];
    rewrite ?bool_decide_true by eauto;
    rewrite ?bool_decide_false by (intros [? ?]; discriminate);
    cbn [negb app].
  - rewrite app_nil_r. split.
    + intros H. apply app_eq_nil in H as [Hd H].
      apply app_eq_nil in H as [Hc Hp].
      split; [eauto|]. exists specs. split; [reflexivity|].
      intros spec [<-|[<-|[<-|[]]]]; apply (check_spec_nil i); assumption.
    + intros (_ & specs' & Hs & Hall). inversion Hs; subst specs'.
      rewrite (proj2 (check_spec_nil i specs "data")) by (apply Hall; cbn; auto).
      rewrite (proj2 (check_spec_nil i specs "calls")) by (apply Hall; cbn; auto).
      rewrite (proj2 (check_spec_nil i specs "price")) by (apply Hall; cbn; auto).
      reflexivity.
  - split; [discriminate|]. intros (_ & specs' & Hs & _). discriminate.
  - split; [discriminate|]. intros ([? H] & _). discriminate.
  - split; [discriminate|]. intros ([? H] & _). discriminate.
Qed.

Lemma validate_from_nil i packages :
  validate_from i packages = [] <-> List.Forall well_formed_package packages.
Proof.
  revert i. induction packages as [|package rest IH]; intros i;
    cbn [validate_from].
  - split; [constructor|reflexivity].
  - split.
    + intros H. apply app_eq_nil in H as [Hp Hr]. constructor.
      * apply (validate_package_nil i), Hp.
      * apply (IH (S i)), Hr.
    + intros H. inversion H as [|? ? Hp Hr]; subst.
      rewrite (proj2 (validate_package_nil i package) Hp).
      apply (IH (S i)), Hr.
Qed.

(** X24.  [validate_package_data] reports no error exactly when every
    package has a name and specs, and the specs hold a number under each of
    ["data"], ["calls"] and ["price"]. *)
Theorem validate_package_data_clean (packages : list Package) :
  validate_package_data packages = [] <->
  List.Forall well_formed_package packages.
Proof. apply validate_from_nil. Qed.

Lemma validate_package_head i package e :
  In e (validate_package i package) ->
  exists rest, e = Lit "套餐 " :: index_piece i :: rest.
Proof.
  unfold validate_package, required_fields, required_specs, check_field,
    check_spec.
  cbn [flat_map app]. intros Hin.
  repeat (apply in_app_or in Hin as [Hin|Hin]);
    repeat match type of Hin with
           | In _ (if ?b then _ else _) => destruct b
           | In _ (match ?o with Some _ => _ | None => _ end) => destruct o
           | In _ (_ ++ _) => apply in_app_or in Hin as [Hin|Hin]
           | In _ [_] => destruct Hin as [<-|[]]
           | In _ [] => destruct Hin
           end;
    eexists; reflexivity.
Qed.

Lemma validate_from_errors i packages e :
  In e (validate_from i packages) ->
  exists j package rest,
    e = Lit "套餐 " :: index_piece (i + j) :: rest /\
    nth_error packages j = Some package /\
    ~ well_formed_package package.
Proof.
  revert i. induction packages as [|package others IH]; intros i;
    cbn [validate_from]; [intros []|].
  intros Hin. apply in_app_or in Hin as [Hin|Hin].
  - destruct (validate_package_head i package e Hin) as [rest He].
    exists 0%nat, package, rest. rewrite Nat.add_0_r.
    split; [exact He|]. split; [reflexivity|].
    intros Hwf. apply (validate_package_nil i) in Hwf.
    rewrite Hwf in Hin. destruct Hin.
  - destruct (IH (S i) Hin) as (j & package' & rest & He & Hnth & Hwf).
    exists (S j), package', rest.
    replace (i + S j)%nat with (S i + j)%nat by lia. auto.
Qed.

(** X25.  Every error that [validate_package_data] reports opens with the
    position of a package of the submitted list, and that package is indeed
    not well formed. *)
Theorem validate_package_data_errors
    (packages : list Package) (e : text) :
  In e (validate_package_data packages) ->
  exists j package rest,
    e = Lit "套餐 " :: index_piece j :: rest /\
    nth_error packages j = Some package /\
    ~ well_formed_package package.
Proof. apply (validate_from_errors 0). Qed.

Lemma validate_package_data_errors_witness :
  exists j package rest,
    [Lit "套餐 "; index_piece 1; Lit ": 缺少字段 '"; Lit "name"; Lit "'"] =
      Lit "套餐 " :: index_piece j :: rest /\
    nth_error [package_complete; package_broken] j = Some package /\
    ~ well_formed_package package.
Proof.
  apply (validate_package_data_errors [package_complete; package_broken]).
  vm_compute. left. reflexivity.
Defined.

Lemma get_packages_by_carrier_first_match_witness :
  get_packages_by_carrier sample_manager "中国联通" = [].
Proof.
  apply (get_packages_by_carrier_first_match sample_manager "中国联通").
  intros [H|[]]. discriminate H.
Defined.

Lemma register_source_lookup_witness :
  get_packages_by_carrier
    (register_source sample_manager
       {| get_carrier_name := "中国移动"; get_packages := [product_unpriced] |})
    "中国移动" =
  get_packages_by_carrier sample_manager "中国移动".
Proof.
  apply (register_source_lookup sample_manager
           {| get_carrier_name := "中国移动"; get_packages := [product_unpriced] |}
           "中国移动").
  left. reflexivity.
Defined.

(** * Eligibility against the catalog and the budget *)

Lemma eligible_true_iff self needs budget p :
  eligible self needs budget p = true <->
  within_tolerance self budget p = true /\ check_needs needs (specs_of p) = true.
Proof.
  unfold eligible, check_basic_requirements, within_tolerance, Py.gt, Py.lt,
    Py.le.
  destruct (Qle_bool _ _); cbn [negb]; split; try tauto; try discriminate;
    try (intros [H _]; discriminate).
Qed.

Lemma evaluate_products_app self needs budget l1 l2 :
  evaluate_products self needs budget (l1 ++ l2) =
  evaluate_products self needs budget l1
  ++ evaluate_products self needs budget l2.
Proof.
  induction l1 as [|p l1 IH]; cbn [app evaluate_products]; [reflexivity|].
  destruct (_evaluate_single_product self needs budget p); rewrite IH;
    reflexivity.
Qed.

(** X26.  A product that is not eligible has no influence on the result:
    taking it out of the catalog leaves the output of [recommend]
    unchanged. *)
Theorem ineligible_product_is_ignored
    (self : RecommendationEngine) (needs : Needs) (budget : Q)
    (l1 l2 : list Product) (p : Product) :
  eligible self needs budget p = false ->
  recommend self needs budget (l1 ++ p :: l2) =
  recommend self needs budget (l1 ++ l2).
Proof.
  intros He. unfold recommend.
  rewrite !evaluate_products_app. cbn [evaluate_products].
  rewrite evaluate_single_eligible, He. reflexivity.
Qed.

Lemma ineligible_product_is_ignored_witness :
  recommend default_engine sample_needs 120 ([product_A] ++ product_B :: []) =
  recommend default_engine sample_needs 120 ([product_A] ++ []).
Proof.
  apply (ineligible_product_is_ignored default_engine sample_needs 120
           [product_A] [] product_B).
  vm_compute. reflexivity.
Defined.

(** X27.  With a budget tolerance that is not negative, raising the budget
    never costs a product its eligibility. *)
Theorem eligibility_monotone_in_budget
    (self : RecommendationEngine) (needs : Needs) (b1 b2 : Q) (p : Product) :
  0 <= budget_tolerance (thresholds (config self)) ->
  b1 <= b2 ->
  eligible self needs b1 p = true -> eligible self needs b2 p = true.
Proof.
  intros Ht Hb He. apply eligible_true_iff in He as [Hw Hc].
  apply eligible_true_iff. split; [|exact Hc].
  unfold within_tolerance in *. apply le_true in Hw. apply le_true.
  eapply Qle_trans; [exact Hw|].
  apply Qmult_le_compat_r; assumption.
Qed.

Lemma eligibility_monotone_in_budget_witness :
  eligible default_engine sample_needs 200 product_A = true.
Proof.
  apply (eligibility_monotone_in_budget default_engine sample_needs 120 200
           product_A).
  - discriminate.
  - discriminate.
  - vm_compute. reflexivity.
Defined.

Lemma specs_satisfy_check_needs (sp : gmap string Q) needs :
  specs_satisfy sp needs = true -> check_needs needs sp = true.
Proof.
  unfold specs_satisfy. induction needs as [|[k v] rest IH];
    cbn [forallb check_needs]; [reflexivity|].
  intros H. apply andb_true_iff in H as [Hk Hrest].
  destruct (sp !! k) as [pv|]; [|apply IH, Hrest].
  cbn [default] in Hk. unfold Py.ge in Hk. apply le_true in Hk.
  assert (E : Py.lt pv v = false) by (apply lt_false; exact Hk).
  rewrite E. apply IH, Hrest.
Qed.

(** X28.  The budget advice of the diagnosis works: with a budget tolerance
    of at least 1, every product listed in [over_budget_products] becomes
    eligible as soon as the budget is not negative and reaches its price. *)
Theorem over_budget_product_unlocked_by_budget
    (self : RecommendationEngine) (needs : Needs) (budget : Q)
    (products : list Product) :
  1 <= budget_tolerance (thresholds (config self)) ->
  exists d, analyze_no_match_reason self needs budget products = Some d /\
    forall p b, In p (over_budget_products d) ->
      0 <= b -> price_fallback p <= b ->
      eligible self needs b p = true.
Proof.
  intros Ht.
  destruct (analyze_no_match_reason_shape self needs budget products)
    as (sugg & Hd & _).
  eexists. split; [exact Hd|]. cbn [over_budget_products].
  intros p b Hover Hb Hp. rewrite analyze_over in Hover.
  cbn [empty_analysis over_budget_products app] in Hover.
  apply List.filter_In in Hover as [_ Hover].
  apply andb_true_iff in Hover as [Hs _].
  apply eligible_true_iff. split; [|apply specs_satisfy_check_needs, Hs].
  unfold within_tolerance. apply le_true.
  eapply Qle_trans; [exact Hp|].
  assert (Hm : b * 1 <= b * budget_tolerance (thresholds (config self))).
  { rewrite (Qmult_comm b 1), (Qmult_comm b _).
    apply Qmult_le_compat_r; assumption. }
  rewrite Qmult_1_r in Hm. exact Hm.
Qed.

Lemma over_budget_product_unlocked_by_budget_witness :
  exists d,
    analyze_no_match_reason default_engine [("data", 30)] 50 [product_B] =
    Some d /\
    forall p b, In p (over_budget_products d) ->
      0 <= b -> price_fallback p <= b ->
      eligible default_engine [("data", 30)] b p = true.
Proof.
  apply (over_budget_product_unlocked_by_budget default_engine [("data", 30)]
           50 [product_B]).
  discriminate.
Defined.

(** * Rounding of the scores *)

(** The integer [round_half_even] picks is a nearest one, and an even one
    when two are equally near. *)
Lemma round_half_even_spec q :
  let z := Py.round_half_even q in
  let n := Qnum q in
  let d := Zpos (Qden q) in
  ((- d < 2 * n - 2 * z * d < d)%Z \/
   ((2 * n - 2 * z * d = d \/ 2 * n - 2 * z * d = - d)%Z /\ Z.even z = true)).
Proof.
  unfold Py.round_half_even. cbv zeta.
  set (n := Qnum q). set (d := Zpos (Qden q)).
  assert (Hd : (0 < d)%Z) by (unfold d; lia).
  pose proof (Z.div_mod n d ltac:(lia)) as Hdm.
  pose proof (Z.mod_pos_bound n d Hd) as Hr.
  set (fl := (n / d)%Z) in *. set (r := (n mod d)%Z) in *.
  destruct (Z.compare_spec (2 * r) d) as [He|Hl|Hg].
  - right. destruct (Z.even fl) eqn:E.
    + split; [left; nia|exact E].
    + split; [right; nia|].
      rewrite Z.add_1_r, Z.even_succ, <- Z.negb_even, E. reflexivity.
  - left. nia.
  - left. nia.
Qed.

Lemma round_half_even_mono q1 q2 :
  q1 <= q2 -> (Py.round_half_even q1 <= Py.round_half_even q2)%Z.
Proof.
  intros Hle. unfold Qle in Hle.
  pose proof (round_half_even_spec q1) as H1.
  pose proof (round_half_even_spec q2) as H2. cbv zeta in H1, H2.
  set (z1 := Py.round_half_even q1) in *.
  set (z2 := Py.round_half_even q2) in *.
  set (n1 := Qnum q1) in *. set (n2 := Qnum q2) in *.
  assert (Hd1 : (0 < Zpos (Qden q1))%Z) by lia.
  assert (Hd2 : (0 < Zpos (Qden q2))%Z) by lia.
  set (d1 := Zpos (Qden q1)) in *. set (d2 := Zpos (Qden q2)) in *.
  destruct (Z_le_gt_dec z1 z2) as [|Hgt]; [assumption|exfalso].
  assert (Hprod : (0 < d1 * d2)%Z) by nia.
  assert (L1 : (2 * n1 * d2 >= (2 * z1 - 1) * (d1 * d2))%Z)
    by (destruct H1 as [?|[[?|?] ?]]; nia).
  assert (U2 : (2 * n2 * d1 <= (2 * z2 + 1) * (d1 * d2))%Z)
    by (destruct H2 as [?|[[?|?] ?]]; nia).
  assert (Hz : z1 = (z2 + 1)%Z) by nia.
  assert (T1 : (2 * n1 - 2 * z1 * d1 = - d1)%Z) by nia.
  assert (T2 : (2 * n2 - 2 * z2 * d2 = d2)%Z) by nia.
  assert (E1 : Z.even z1 = true)
    by (destruct H1 as [?|[_ ?]]; [lia|assumption]).
  assert (E2 : Z.even z2 = true)
    by (destruct H2 as [?|[_ ?]]; [lia|assumption]).
  rewrite Hz, Z.add_1_r, Z.even_succ, <- Z.negb_even, E2 in E1. discriminate.
Qed.

Lemma round2_mono q1 q2 : q1 <= q2 -> Py.round2 q1 <= Py.round2 q2.
Proof.
  intros H. unfold Py.round2.
  assert (H100 : q1 * 100 <= q2 * 100)
    by (apply Qmult_le_compat_r; [exact H|discriminate]).
  apply round_half_even_mono in H100.
  unfold Qle. cbn [Qnum Qden]. lia.
Qed.

(** X29.  With weights that are not negative, a product that another one
    matches or beats on both the usage score and the price score does not
    get the higher final score, rounding included. *)
Theorem score_respects_dominance
    (self : RecommendationEngine) (u1 u2 p1 p2 : Q) :
  0 <= usage_match (score_weights (config self)) ->
  0 <= price_advantage (score_weights (config self)) ->
  u1 <= u2 -> p1 <= p2 ->
  Py.round2 (_calculate_weighted_score self u1 p1) <=
  Py.round2 (_calculate_weighted_score self u2 p2).
Proof.
  intros Hwu Hwp Hu Hp. apply round2_mono. unfold _calculate_weighted_score.
  apply Qplus_le_compat; apply Qmult_le_compat_r; assumption.
Qed.

Lemma score_respects_dominance_witness :
  Py.round2 (_calculate_weighted_score default_engine 1 (12 # 10)) <=
  Py.round2 (_calculate_weighted_score default_engine (19 # 10) (15 # 10)).
Proof.
  apply (score_respects_dominance default_engine 1 (19 # 10) (12 # 10) (15 # 10));
    discriminate.
Defined.

(** * The price of a product *)

(** C10: [recommend], [analyze_no_match_reason] and [generate_match_reason]
    all work with the same price of a product: the ["price"] entry of its
    specs if present, otherwise its top-level ["price"] if present,
    otherwise 0.
    - [recommend]: a product is evaluated with that price, and the products
      recommended from a catalog are those that pass the eligibility check
      with it.
    - [analyze_no_match_reason]: every turn of its scan works with that
      price; over a whole catalog [over_budget_products] holds the products
      that meet the needs and whose price so resolved exceeds the tolerated
      budget, and [insufficient_specs] records under each key those whose
      price so resolved is within it.
    - [generate_match_reason]: the price clause is made from that price.
    A product with no price anywhere has price 0, and for a budget and a
    budget tolerance that are not negative the price test of the eligibility
    check lets it through: it is eligible exactly when its specs meet the
    needs. *)
Theorem price_resolved_by_fallback
    (self : RecommendationEngine) (needs : Needs) (budget : Q) (p : Product)
    (rest : list Product) (analysis : Diagnosis) (products : list Product) :
  _evaluate_single_product self needs budget p =
    (if check_basic_requirements self needs (specs_of p) budget
          (price_fallback p)
     then Some {| product := p;
                  score := Py.round2
                    (_calculate_weighted_score self
                       (calculate_usage_score self needs (specs_of p))
                       (calculate_price_score budget (price_fallback p)));
                  usage_score := Py.round2
                    (calculate_usage_score self needs (specs_of p));
                  price_score := Py.round2
                    (calculate_price_score budget (price_fallback p));
                  match_reason := generate_match_reason self needs budget p |}
     else None) /\
  map product (evaluate_products self needs budget products) =
    List.filter
      (fun q => check_basic_requirements self needs (specs_of q) budget
                  (price_fallback q))
      products /\
  _analyze_product_mismatch self (p :: rest) needs budget analysis =
    _analyze_product_mismatch self rest needs budget
      (_check_insufficient_specs self (specs_of p) (price_fallback p) needs
         budget
         (if _is_over_budget_but_specs_satisfy self (specs_of p) needs
               (price_fallback p) budget
          then {| over_budget_products := over_budget_products analysis ++ [p];
                  insufficient_specs := insufficient_specs analysis;
                  suggestions := suggestions analysis |}
          else analysis)
         p) /\
  (exists d, analyze_no_match_reason self needs budget products = Some d /\
     over_budget_products d =
       List.filter
         (fun q => specs_satisfy (specs_of q) needs
                   && Py.gt (price_fallback q)
                        (budget * budget_tolerance (thresholds (config self))))
         products /\
     forall k,
       dict_get k (insufficient_specs d) =
       flat_map
         (fun q => if Py.le (price_fallback q)
                        (budget * budget_tolerance (thresholds (config self)))
                   then recorded_under k needs q else [])
         products) /\
  generate_match_reason self needs budget p =
    join "；" (_analyze_need_match_reasons self needs (specs_of p)
               ++ _analyze_price_reasons self budget (price_fallback p)) /\
  (specs_of p !! "price" = None -> price p = None ->
   price_fallback p = 0 /\
   (0 <= budget -> 0 <= budget_tolerance (thresholds (config self)) ->
    eligible self needs budget p = check_needs needs (specs_of p) /\
    (_evaluate_single_product self needs budget p = None <->
     check_needs needs (specs_of p) = false))).
Proof.
  split; [apply evaluate_single_eligible|].
  split; [apply evaluate_products_catalog_order|].
  split; [cbn [_analyze_product_mismatch]; rewrite price_resolution; reflexivity|].
  split.
  { destruct (analyze_no_match_reason_shape self needs budget products)
      as (sugg & Hd & _).
    eexists. split; [exact Hd|].
    cbn [over_budget_products insufficient_specs]. split.
    - rewrite analyze_over. reflexivity.
    - intros k. rewrite analyze_get. reflexivity. }
  split; [unfold generate_match_reason; rewrite price_resolution; reflexivity|].
  intros Hsp Hpr.
  assert (H0 : price_fallback p = 0).
  { unfold price_fallback, specs_of in *. rewrite Hpr.
    destruct (specs p) as [sp|]; [rewrite Hsp|]; reflexivity. }
  split; [exact H0|]. intros Hb Ht.
  assert (He : eligible self needs budget p = check_needs needs (specs_of p)).
  { unfold eligible. rewrite H0. apply check_unpriced; assumption. }
  split; [exact He|].
  rewrite evaluate_single_eligible, He.
  destruct (check_needs needs (specs_of p)); split; congruence.
Qed.

Lemma price_resolved_by_fallback_witness :
  price_fallback product_unpriced = 0 /\
  eligible default_engine sample_needs 50 product_unpriced = true.
Proof.
  destruct (price_resolved_by_fallback default_engine sample_needs 50
              product_unpriced [] empty_analysis [product_unpriced])
    as (_ & _ & _ & _ & _ & H).
  destruct H as [H0 He]; [reflexivity|reflexivity|].
  split; [exact H0|].
  destruct He as [He _]; [discriminate|discriminate|].
  rewrite He. reflexivity.
Defined.
